(** * Lecture Notes Generator: the three-stage pipeline of lecture_notes_gui.py

    A shallow embedding of [LectureNotesGUI] (src/DL-mpR/lecture_notes_gui.py):
    the submit handler [start_processing], the worker [process_pipeline] and
    the three stage methods [download_audio], [transcribe_audio] and
    [generate_notes], written in a state-and-exception monad over the
    attributes of [self], the files on disk and the external tools. *)

From Stdlib Require Import ZArith String Ascii.
From stdpp Require Import gmap list.

(** ** Python strings

    A Python [str] is a sequence of Unicode code points. *)

Abbreviation pystr := (list N).

(** An ASCII literal of the source, as code points. *)
Definition py (s : string) : pystr :=
  List.map N_of_ascii (list_ascii_of_string s).

Definition NL : pystr := [10%N].

(** The pictographs the source uses in its messages. *)
Definition HEADPHONE : pystr := [0x1F3A7%N].
Definition MICROPHONE : pystr := [0x1F3A4%N].
Definition MEMO : pystr := [0x1F4DD%N].
Definition CHECK_MARK : pystr := [0x2705%N].
Definition CROSS_MARK : pystr := [0x274C%N].

(** [str.isspace] on one code point (CPython's [_PyUnicode_IsWhitespace]). *)
Definition is_space (c : N) : bool :=
  ((9 <=? c) && (c <=? 13) || (28 <=? c) && (c <=? 32)
   || (c =? 0x85) || (c =? 0xA0) || (c =? 0x1680)
   || (0x2000 <=? c) && (c <=? 0x200A)
   || (c =? 0x2028) || (c =? 0x2029) || (c =? 0x202F)
   || (c =? 0x205F) || (c =? 0x3000))%N.

Fixpoint lstrip (s : pystr) : pystr :=
  match s with
  | c :: s' => if is_space c then lstrip s' else s
  | [] => []
  end.

Definition rstrip (s : pystr) : pystr := rev (lstrip (rev s)).

(** [s.strip()] with no argument. *)
Definition strip (s : pystr) : pystr := rstrip (lstrip s).

(** Truth value of a [str]: only the empty string is false. *)
Definition truthy (s : pystr) : bool :=
  match s with [] => false | _ => true end.

(** ** pathlib (POSIX flavour)

    A [Path] is its root and its components; [Path(s)] drops empty and
    ["."] components, so that [Path("./") / "a"] and [Path("") / "a"] are
    both [a]. *)

Abbreviation path := (pystr * list pystr)%type.

Definition SLASH : N := 47%N.

Fixpoint split_slash (s : pystr) : list pystr :=
  match s with
  | [] => [[]]
  | c :: s' =>
      if (c =? SLASH)%N then [] :: split_slash s'
      else match split_slash s' with
           | part :: parts => (c :: part) :: parts
           | [] => [[c]]
           end
  end.

Definition path_root (s : pystr) : pystr :=
  match s with
  | 47%N :: 47%N :: 47%N :: _ => [SLASH]
  | 47%N :: 47%N :: _ => [SLASH; SLASH]
  | 47%N :: _ => [SLASH]
  | _ => []
  end.

Definition keep_part (part : pystr) : bool :=
  negb (bool_decide (part = []) || bool_decide (part = py ".")).

Definition Path (s : pystr) : path :=
  (path_root s, List.filter keep_part (split_slash s)).

(** [p / name], for a [name] without a slash (all the source's are literals). *)
Definition path_div (p : path) (name : pystr) : path := (p.1, p.2 ++ [name]).

Fixpoint join_slash (parts : list pystr) : pystr :=
  match parts with
  | [] => []
  | [part] => part
  | part :: parts' => part ++ SLASH :: join_slash parts'
  end.

(** [str(p)]. *)
Definition path_str (p : path) : pystr :=
  match p with
  | ([], []) => py "."
  | (root, parts) => root ++ join_slash parts
  end.

(** ** Exceptions

    Every exception the pipeline meets is a subclass of [Exception]; the
    handlers of the source tell apart [subprocess.CalledProcessError],
    [FileNotFoundError] and the rest. *)

Inductive exn : Type :=
  | CalledProcessError (returncode : Z) (stderr : pystr)
  | FileNotFoundError (msg : pystr)
  | OtherError (msg : pystr)      (* any other subclass raised by a library *)
  | Exception (msg : pystr).      (* [raise Exception(msg)] of the source *)

(** [str(e)].  No handler of the source applies [str] to a
    [CalledProcessError] ([download_audio], where alone it is raised, reads
    [e.stderr]), so its text is not rendered in full. *)
Definition str_exn (e : exn) : pystr :=
  match e with
  | CalledProcessError _ _ => py "Command returned non-zero exit status."
  | FileNotFoundError msg | OtherError msg | Exception msg => msg
  end.

Inductive res (A : Type) : Type :=
  | Ok (a : A)
  | Raise (e : exn).
Arguments Ok {A} a.
Arguments Raise {A} e.

(** ** The application state *)

Inductive btn_state := Normal | Disabled.

Inductive dialog_kind := ShowInfo | ShowError.

(** The model object [whisper.load_model(name)] returns. *)
Record WhisperModel := { model_name : pystr }.

Inductive Stage := Download | Transcribe | Summarize.

(** What a run did, in order: stage methods entered and left (by [return]
    or by an exception), external tools called and files written by the
    program itself.  The trace is ghost state: it is not an attribute of the
    source, and no method reads it. *)
Inductive Event :=
  | Enter (st : Stage)
  | Returned (st : Stage)
  | Raised (st : Stage)
  | RunYtDlp (cmd : list pystr)
  | LoadModel (name : pystr)
  | RunTranscribe (m : WhisperModel) (audio : pystr)
  | RunOllama (cmd : list pystr) (stdin : pystr)
  | Wrote (p : path).

(** The four [tk.StringVar]s of the form. *)
Record Vars := {
  youtube_url : pystr;
  model_size : pystr;
  ollama_model : pystr;
  output_folder : pystr;
}.

(** The widgets the pipeline touches, and the message boxes shown. *)
Record Widgets := {
  process_btn : btn_state;
  progress : bool;                              (* progress bar running *)
  status_label : pystr * pystr;                 (* text, foreground *)
  log_text : pystr;
  notes_text : pystr;
  dialogs : list (dialog_kind * pystr * pystr); (* kind, title, message *)
}.

(** [self], the disk and the ghost bookkeeping.  A file holds the text that
    a text-mode read of it returns; a directory in [dirs] stands for itself
    and its ancestors ([mkdir(parents=True)]). *)
Record App := {
  vars : Vars;
  ui : Widgets;
  whisper_model : option WhisperModel;
  files : gmap path pystr;
  dirs : gset path;
  trace : list Event;
  threads : nat;                 (* worker threads started and not finished *)
}.

Definition set_ui (f : Widgets -> Widgets) (s : App) : App :=
  {| vars := vars s; ui := f (ui s); whisper_model := whisper_model s;
     files := files s; dirs := dirs s; trace := trace s;
     threads := threads s |}.

Definition set_vars (f : Vars -> Vars) (s : App) : App :=
  {| vars := f (vars s); ui := ui s; whisper_model := whisper_model s;
     files := files s; dirs := dirs s; trace := trace s;
     threads := threads s |}.

Definition set_whisper_model (m : option WhisperModel) (s : App) : App :=
  {| vars := vars s; ui := ui s; whisper_model := m;
     files := files s; dirs := dirs s; trace := trace s;
     threads := threads s |}.

Definition set_files (fs : gmap path pystr) (s : App) : App :=
  {| vars := vars s; ui := ui s; whisper_model := whisper_model s;
     files := fs; dirs := dirs s; trace := trace s;
     threads := threads s |}.

Definition set_dirs (ds : gset path) (s : App) : App :=
  {| vars := vars s; ui := ui s; whisper_model := whisper_model s;
     files := files s; dirs := ds; trace := trace s;
     threads := threads s |}.

Definition add_event (ev : Event) (s : App) : App :=
  {| vars := vars s; ui := ui s; whisper_model := whisper_model s;
     files := files s; dirs := dirs s; trace := trace s ++ [ev];
     threads := threads s |}.

Definition set_threads (n : nat) (s : App) : App :=
  {| vars := vars s; ui := ui s; whisper_model := whisper_model s;
     files := files s; dirs := dirs s; trace := trace s;
     threads := n |}.

Definition with_process_btn (b : btn_state) (u : Widgets) : Widgets :=
  {| process_btn := b; progress := progress u; status_label := status_label u;
     log_text := log_text u; notes_text := notes_text u;
     dialogs := dialogs u |}.

Definition with_progress (b : bool) (u : Widgets) : Widgets :=
  {| process_btn := process_btn u; progress := b;
     status_label := status_label u; log_text := log_text u;
     notes_text := notes_text u; dialogs := dialogs u |}.

Definition with_status (t : pystr * pystr) (u : Widgets) : Widgets :=
  {| process_btn := process_btn u; progress := progress u; status_label := t;
     log_text := log_text u; notes_text := notes_text u;
     dialogs := dialogs u |}.

Definition with_log (t : pystr) (u : Widgets) : Widgets :=
  {| process_btn := process_btn u; progress := progress u;
     status_label := status_label u; log_text := t;
     notes_text := notes_text u; dialogs := dialogs u |}.

Definition with_notes (t : pystr) (u : Widgets) : Widgets :=
  {| process_btn := process_btn u; progress := progress u;
     status_label := status_label u; log_text := log_text u;
     notes_text := t; dialogs := dialogs u |}.

Definition with_dialog (d : dialog_kind * pystr * pystr) (u : Widgets)
  : Widgets :=
  {| process_btn := process_btn u; progress := progress u;
     status_label := status_label u; log_text := log_text u;
     notes_text := notes_text u; dialogs := dialogs u ++ [d] |}.

(** ** The environment of one run

    The external tools, the clock and the faults of the file system are not
    in the source; a [World] fixes how they answer during one run.  Every
    external tool may change the files. *)

(** Starting a child process: it ran and exited, or it could not be started
    ([FileNotFoundError] when the executable is missing). *)
Inductive spawn :=
  | Exited (returncode : Z) (stdout stderr : pystr)
  | NotStarted (e : exn).

Record World := {
  clock : pystr;                     (* [now().strftime("%H:%M:%S")] *)
  (* [None]: [import whisper] succeeded; [Some err]: [WHISPER_ERROR] *)
  whisper_import : option pystr;
  yt_dlp : list pystr -> gmap path pystr -> gmap path pystr * spawn;
  load_model : pystr -> gmap path pystr -> gmap path pystr * option exn;
  (* [model.transcribe(audio)["text"]] *)
  transcribe : WhisperModel -> pystr -> gmap path pystr
               -> gmap path pystr * res pystr;
  ollama : list pystr -> pystr -> gmap path pystr -> gmap path pystr * spawn;
  mkdir_fault : path -> option exn;
  open_r_fault : path -> option exn;
  open_w_fault : path -> option exn;
}.

(** ** The monad of the methods: state of [self] and disk, and exceptions *)

Definition M (A : Type) : Type := App -> App * res A.

#[export] Instance M_ret : MRet M := fun A a s => (s, Ok a).

#[export] Instance M_bind : MBind M := fun A B f m s =>
  match m s with
  | (s', Ok a) => f a s'
  | (s', Raise e) => (s', Raise e)
  end.

Definition raise {A} (e : exn) : M A := fun s => (s, Raise e).

Definition gets {A} (f : App -> A) : M A := fun s => (s, Ok (f s)).

Definition modify (f : App -> App) : M unit := fun s => (f s, Ok tt).

(** [try: m except ...: h]; [h e = None] when no clause matches [e], which
    then propagates. *)
Definition try_except {A} (m : M A) (h : exn -> option (M A)) : M A :=
  fun s =>
    match m s with
    | (s', Ok a) => (s', Ok a)
    | (s', Raise e) =>
        match h e with
        | Some k => k s'
        | None => (s', Raise e)
        end
    end.

(** [try: m finally: f]. *)
Definition try_finally {A} (m : M A) (f : M unit) : M A :=
  fun s =>
    match m s with
    | (s', r) =>
        match f s' with
        | (s'', Ok _) => (s'', r)
        | (s'', Raise e) => (s'', Raise e)
        end
    end.

(** An external tool acting on the files. *)
Definition external {A} (tool : gmap path pystr -> gmap path pystr * A)
  : M A :=
  fun s => let '(fs, a) := tool (files s) in (set_files fs s, Ok a).

(** ** Library calls *)

(** [subprocess.run(cmd, capture_output=True, text=True, check=True)]. *)
Definition subprocess_run_check (out : spawn) : M (pystr * pystr) :=
  match out with
  | NotStarted e => raise e
  | Exited rc stdout stderr =>
      if (rc =? 0)%Z then mret (stdout, stderr)
      else raise (CalledProcessError rc stderr)
  end.

(** [subprocess.Popen(cmd, ...)] followed by [process.communicate(input)]:
    the output, the errors and [process.returncode]. *)
Definition popen_communicate (out : spawn) : M (pystr * pystr * Z) :=
  match out with
  | NotStarted e => raise e
  | Exited rc stdout stderr => mret (stdout, stderr, rc)
  end.

(** [output_dir.mkdir(parents=True, exist_ok=True)]. *)
Definition mkdir (w : World) (p : path) : M unit :=
  match mkdir_fault w p with
  | Some e => raise e
  | None => modify (fun s => set_dirs ({[p]} ∪ dirs s) s)
  end.

(** [with open(p, "r", encoding="utf-8") as f: f.read()]. *)
Definition read_text (w : World) (p : path) : M pystr :=
  match open_r_fault w p with
  | Some e => raise e
  | None =>
      fs ← gets files;
      match fs !! p with
      | Some t => mret t
      | None =>
          raise (FileNotFoundError
                   (py "[Errno 2] No such file or directory: '"
                    ++ path_str p ++ py "'"))
      end
  end.

(** [with open(p, "w", encoding="utf-8") as f: f.write(t)]. *)
Definition write_text (w : World) (p : path) (t : pystr) : M unit :=
  match open_w_fault w p with
  | Some e => raise e
  | None =>
      modify (fun s => add_event (Wrote p) (set_files (<[p := t]> (files s)) s))
  end.

(** ** Helper methods of [LectureNotesGUI] *)

Definition update_status (message color : pystr) : M unit :=
  modify (set_ui (with_status (message, color))).

Definition log_message (w : World) (message : pystr) : M unit :=
  modify (fun s =>
    set_ui (with_log (log_text (ui s) ++ py "[" ++ clock w ++ py "] "
                      ++ message ++ NL)) s).

Definition showerror (title message : pystr) : M unit :=
  modify (set_ui (with_dialog (ShowError, title, message))).

Definition showinfo (title message : pystr) : M unit :=
  modify (set_ui (with_dialog (ShowInfo, title, message))).

Definition outcome {A} (st : Stage) (r : res A) : Event :=
  match r with Ok _ => Returned st | Raise _ => Raised st end.

(** The body of a stage method, with its entry and its exit traced. *)
Definition staged {A} (st : Stage) (body : M A) : M A :=
  fun s =>
    let '(s', r) := body (add_event (Enter st) s) in
    (add_event (outcome st r) s', r).

Definition emit (ev : Event) : M unit := modify (add_event ev).

(** [Path(self.output_folder.get())]. *)
Definition output_dir_of (s : App) : path := Path (output_folder (vars s)).

Definition AUDIO_NAME : pystr := py "lecture_audio1.mp3".
Definition TRANSCRIPT_NAME : pystr := py "transcript.txt".
Definition NOTES_NAME : pystr := py "lecture_notes.txt".

(** [cmd] of [download_audio]. *)
Definition download_cmd (audio_file : path) (url : pystr) : list pystr :=
  [py "yt-dlp"; py "-f"; py "bestaudio"; py "--extract-audio";
   py "--audio-format"; py "mp3"; py "-o"; path_str audio_file; url].

(** The argument list given to [subprocess.Popen] in [generate_notes]. *)
Definition ollama_cmd (model : pystr) : list pystr :=
  [py "ollama"; py "run"; model].

Definition YT_DLP_MISSING : pystr :=
  py "yt-dlp not found. Please install it: pip install yt-dlp".

(** ** The three stage methods *)

Definition download_audio (w : World) : M path :=
  staged Download (
  output_dir ← gets output_dir_of;
  let audio_file := path_div output_dir AUDIO_NAME in
  log_message w (HEADPHONE ++ py " Starting audio download...");;
  url ← gets (fun s => youtube_url (vars s));
  let cmd := download_cmd audio_file url in
  try_except
    (emit (RunYtDlp cmd);;
     out ← external (yt_dlp w cmd);
     result ← subprocess_run_check out;
     log_message w (CHECK_MARK ++ py " Audio downloaded successfully");;
     mret audio_file)
    (fun e =>
       match e with
       | CalledProcessError _ stderr =>
           Some (raise (Exception (py "Failed to download audio: " ++ stderr)))
       | FileNotFoundError _ =>
           Some (raise (Exception YT_DLP_MISSING))
       | _ => None
       end)).

Definition transcribe_audio (w : World) (audio_file : path) : M path :=
  staged Transcribe (
  output_dir ← gets output_dir_of;
  let transcript_file := path_div output_dir TRANSCRIPT_NAME in
  match whisper_import w with
  | Some WHISPER_ERROR =>
      raise (Exception (py "Whisper not available: " ++ WHISPER_ERROR))
  | None =>
      size ← gets (fun s => model_size (vars s));
      log_message w
        (MICROPHONE ++ py " Loading Whisper model (" ++ size ++ py ")...");;
      try_except
        ((* Load model if not already loaded or if size changed *)
         cached ← gets whisper_model;
         match cached with
         | None =>
             name ← gets (fun s => model_size (vars s));
             emit (LoadModel name);;
             fault ← external (load_model w name);
             match fault with
             | Some e => raise e
             | None =>
                 modify (set_whisper_model (Some {| model_name := name |}))
             end
         | Some _ => mret tt
         end;;
         log_message w (MICROPHONE ++ py " Transcribing audio...");;
         model ← gets whisper_model;
         match model with
         | None =>
             raise (OtherError
               (py "'NoneType' object has no attribute 'transcribe'"))
         | Some m =>
             emit (RunTranscribe m (path_str audio_file));;
             result ← external (transcribe w m (path_str audio_file));
             match result with
             | Raise e => raise e
             | Ok text =>
                 (* Save transcript *)
                 write_text w transcript_file text;;
                 log_message w (CHECK_MARK ++ py " Transcription completed");;
                 mret transcript_file
             end
         end)
        (fun e =>
           Some (raise (Exception
             (py "Transcription failed: " ++ str_exn e))))
  end).

(** The fixed text of the f-string of [generate_notes], up to the
    [{transcript}] placeholder. *)
Definition PROMPT_TEMPLATE : pystr :=
  py "You are an expert lecture note-taker." ++ NL
  ++ py "Take the following transcript and convert it into structured lecture notes with clear sections, headings, and bullet points." ++ NL
  ++ py "Make it well-organized and easy to study from." ++ NL
  ++ NL
  ++ py "Transcript:" ++ NL.

Definition make_prompt (transcript : pystr) : pystr :=
  PROMPT_TEMPLATE ++ transcript.

Definition generate_notes (w : World) (transcript_file : path) : M path :=
  staged Summarize (
  output_dir ← gets output_dir_of;
  let notes_file := path_div output_dir NOTES_NAME in
  log_message w (MEMO ++ py " Generating lecture notes with Ollama...");;
  (* Read transcript *)
  transcript ← read_text w transcript_file;
  (* Prepare prompt *)
  let prompt := make_prompt transcript in
  try_except
    ((* Call Ollama *)
     model ← gets (fun s => ollama_model (vars s));
     let cmd := ollama_cmd model in
     emit (RunOllama cmd prompt);;
     out ← external (ollama w cmd prompt);
     communicated ← popen_communicate out;
     let '(lecture_notes, errors, returncode) := communicated in
     (if (returncode =? 0)%Z then mret tt
      else raise (Exception (py "Ollama error: " ++ errors)));;
     (* Save notes to file *)
     write_text w notes_file lecture_notes;;
     (* Display notes in the GUI *)
     modify (set_ui (with_notes lecture_notes));;
     log_message w
       (CHECK_MARK ++ py " Lecture notes generated and displayed");;
     mret notes_file)
    (fun e =>
       match e with
       | FileNotFoundError _ =>
           Some (raise (Exception (py
             "Ollama not found. Please install Ollama and ensure it's in your PATH")))
       | _ =>
           Some (raise (Exception
             (py "Note generation failed: " ++ str_exn e)))
       end)).

(** ** The pipeline and its submission *)

(** The body of the [try] of [process_pipeline]. *)
Definition pipeline_steps (w : World) : M unit :=
  output_dir ← gets output_dir_of;
  mkdir w output_dir;;
  (* Step 1: Download audio *)
  update_status (py "Downloading audio...") (py "blue");;
  audio_file ← download_audio w;
  (* Step 2: Transcribe *)
  update_status (py "Transcribing audio...") (py "blue");;
  transcript_file ← transcribe_audio w audio_file;
  (* Step 3: Generate notes *)
  update_status (py "Generating lecture notes...") (py "blue");;
  notes_file ← generate_notes w transcript_file;
  update_status (CHECK_MARK ++ py " Process completed successfully!")
                (py "green");;
  log_message w
    (CHECK_MARK ++ py " All files saved to: " ++ path_str output_dir);;
  log_message w
    (MEMO ++ py " Notes are now displayed in the 'Generated Notes' tab");;
  showinfo (py "Success")
    (py "Lecture notes generated successfully!" ++ NL ++ NL
     ++ py "Check the 'Generated Notes' tab to view your notes.").

(** The [except Exception as e] clause of [process_pipeline]. *)
Definition pipeline_failed (w : World) (e : exn) : M unit :=
  update_status (CROSS_MARK ++ py " Error: " ++ str_exn e) (py "red");;
  log_message w (CROSS_MARK ++ py " Error: " ++ str_exn e);;
  showerror (py "Error") (py "Process failed: " ++ str_exn e).

Definition process_pipeline (w : World) : M unit :=
  try_finally
    (try_except (pipeline_steps w) (fun e => Some (pipeline_failed w e)))
    ((* Re-enable button and stop progress *)
     modify (set_ui (with_progress false));;
     modify (set_ui (with_process_btn Normal))).

(** The message box of a rejected submission. *)
Definition PLEASE_ENTER : dialog_kind * pystr * pystr :=
  (ShowError, py "Error", py "Please enter a YouTube URL").

Definition start_processing : M unit :=
  url ← gets (fun s => youtube_url (vars s));
  if negb (truthy (strip url)) then
    showerror (py "Error") (py "Please enter a YouTube URL")
  else
    (* Disable button and start progress *)
    modify (set_ui (with_process_btn Disabled));;
    modify (set_ui (with_progress true));;
    (* Start processing thread *)
    modify (fun s => set_threads (S (threads s)) s).

(** ** The application over time

    [start_processing] runs on the main thread; each worker it starts runs
    [process_pipeline] and then ends.  A worker is taken as one step, in the
    [World] it meets. *)

Definition worker (w : World) : M unit :=
  process_pipeline w;;
  modify (fun s => set_threads (pred (threads s)) s).

(** The state [__init__] builds, on a disk holding [fs] and [ds]. *)
Definition init (fs : gmap path pystr) (ds : gset path) : App :=
  {| vars := {| youtube_url := []; model_size := py "base";
                ollama_model := py "llama3"; output_folder := py "./" |};
     ui := {| process_btn := Normal; progress := false;
              status_label := (py "Ready to process", py "green");
              log_text := []; notes_text := []; dialogs := [] |};
     whisper_model := None;
     files := fs; dirs := ds; trace := []; threads := 0 |}.

(** What happens to the application: the user edits the form, clears the
    notes, or clicks the button bound to [start_processing] (a disabled
    [ttk.Button] does not call its command); a started worker runs. *)
Inductive Action :=
  | Edit (f : Vars -> Vars)
  | ClearNotes
  | Click
  | WorkerRuns (w : World).

Definition step (s : App) (a : Action) : App :=
  match a with
  | Edit f => set_vars f s
  | ClearNotes => set_ui (with_notes []) s
  | Click =>
      match process_btn (ui s) with
      | Normal => (start_processing s).1
      | Disabled => s
      end
  | WorkerRuns w =>
      match threads s with
      | O => s
      | S _ => (worker w s).1
      end
  end.

Definition run (s : App) (acts : list Action) : App := foldl step s acts.

(** A pipeline run is active while a worker has not finished. *)
Definition active (s : App) : Prop := (0 < threads s)%nat.

(** ** Observations on states and traces *)

(** The three artifacts of a run, under the output folder of the form. *)
Definition audio_file (s : App) : path := path_div (output_dir_of s) AUDIO_NAME.
Definition transcript_file (s : App) : path :=
  path_div (output_dir_of s) TRANSCRIPT_NAME.
Definition notes_file (s : App) : path := path_div (output_dir_of s) NOTES_NAME.

(** The events a method adds to the trace of [s]. *)
Definition events_of {A} (m : M A) (s : App) : list Event :=
  drop (length (trace s)) (trace (m s).1).

(** The events of one run of the pipeline. *)
Definition run_events (w : World) (s : App) : list Event :=
  events_of (process_pipeline w) s.

Definition stage_eqb (a b : Stage) : bool :=
  match a, b with
  | Download, Download | Transcribe, Transcribe | Summarize, Summarize => true
  | _, _ => false
  end.

Definition is_enter (st : Stage) (ev : Event) : bool :=
  match ev with Enter st' => stage_eqb st st' | _ => false end.

Definition is_returned (st : Stage) (ev : Event) : bool :=
  match ev with Returned st' => stage_eqb st st' | _ => false end.

Definition is_raised (st : Stage) (ev : Event) : bool :=
  match ev with Raised st' => stage_eqb st st' | _ => false end.

(** The stage method [st] was called, returned, raised. *)
Definition entered (st : Stage) (evs : list Event) : bool :=
  existsb (is_enter st) evs.
Definition returned (st : Stage) (evs : list Event) : bool :=
  existsb (is_returned st) evs.
Definition raised (st : Stage) (evs : list Event) : bool :=
  existsb (is_raised st) evs.

(** How many times the stage method [st] was called. *)
Definition times_entered (st : Stage) (evs : list Event) : nat :=
  length (List.filter (is_enter st) evs).

(** The files the program wrote, the command lines given to yt-dlp, the
    models asked to transcribe and the calls of ollama, in order. *)
Definition written (evs : list Event) : list path :=
  omap (fun ev => match ev with Wrote p => Some p | _ => None end) evs.
Definition yt_dlp_calls (evs : list Event) : list (list pystr) :=
  omap (fun ev => match ev with RunYtDlp cmd => Some cmd | _ => None end) evs.
Definition models_used (evs : list Event) : list WhisperModel :=
  omap (fun ev => match ev with RunTranscribe m _ => Some m | _ => None end)
       evs.
Definition models_loaded (evs : list Event) : list pystr :=
  omap (fun ev => match ev with LoadModel n => Some n | _ => None end) evs.
Definition ollama_calls (evs : list Event) : list (list pystr * pystr) :=
  omap (fun ev => match ev with
                  | RunOllama cmd stdin => Some (cmd, stdin)
                  | _ => None
                  end) evs.

(** No external tool touches the file [p]. *)
Definition tools_leave (w : World) (p : path) : Prop :=
  (∀ cmd fs, (yt_dlp w cmd fs).1 !! p = fs !! p) ∧
  (∀ name fs, (load_model w name fs).1 !! p = fs !! p) ∧
  (∀ m audio fs, (transcribe w m audio fs).1 !! p = fs !! p) ∧
  (∀ cmd stdin fs, (ollama w cmd stdin fs).1 !! p = fs !! p).

(** [m] leaves the observation [f] of the state as it was. *)
Definition preserves {A X} (f : App -> X) (m : M A) : Prop :=
  ∀ s, f (m s).1 = f s.

(** [wp m s Q]: the method [m], run in state [s], ends in a state and with a
    result that satisfy [Q]. *)
Definition wp {A} (m : M A) (s : App) (Q : App → res A → Prop) : Prop :=
  Q (m s).1 (m s).2.

(** The invariant of the button: it is disabled exactly while the one worker
    runs. *)
Definition button_guards (s : App) : Prop :=
  match process_btn (ui s) with
  | Normal => threads s = 0
  | Disabled => threads s = 1
  end.

(** ** Environments and states to run the methods on *)

Definition with_url (url : pystr) (v : Vars) : Vars :=
  {| youtube_url := url; model_size := model_size v;
     ollama_model := ollama_model v; output_folder := output_folder v |}.

Definition with_model_size (size : pystr) (v : Vars) : Vars :=
  {| youtube_url := youtube_url v; model_size := size;
     ollama_model := ollama_model v; output_folder := output_folder v |}.

(** All three tools succeed; yt-dlp writes the audio where [-o] says
    (the eighth argument of [download_cmd]), the summarizer answers
    [notes]. *)
Definition world_ok (notes : pystr) : World :=
  {| clock := py "12:00:00";
     whisper_import := None;
     yt_dlp := fun cmd fs =>
       (<[Path (nth 7 cmd []) := py "mp3 data"]> fs, Exited 0 [] []);
     load_model := fun _ fs => (fs, None);
     transcribe := fun _ _ fs => (fs, Ok (py "Hello world."));
     ollama := fun _ _ fs => (fs, Exited 0 notes []);
     mkdir_fault := fun _ => None;
     open_r_fault := fun _ => None;
     open_w_fault := fun _ => None |}.

(** yt-dlp is not installed. *)
Definition world_no_yt_dlp : World :=
  {| clock := py "12:00:00";
     whisper_import := None;
     yt_dlp := fun _ fs =>
       (fs, NotStarted (FileNotFoundError
              (py "[Errno 2] No such file or directory: 'yt-dlp'")));
     load_model := fun _ fs => (fs, None);
     transcribe := fun _ _ fs => (fs, Ok (py "Hello world."));
     ollama := fun _ _ fs => (fs, Exited 0 (py "# Notes") []);
     mkdir_fault := fun _ => None;
     open_r_fault := fun _ => None;
     open_w_fault := fun _ => None |}.

(** yt-dlp runs and rejects the URL. *)
Definition world_bad_url : World :=
  {| clock := py "12:00:00";
     whisper_import := None;
     yt_dlp := fun _ fs =>
       (fs, Exited 1 [] (py "ERROR: Unsupported URL"));
     load_model := fun _ fs => (fs, None);
     transcribe := fun _ _ fs => (fs, Ok (py "Hello world."));
     ollama := fun _ _ fs => (fs, Exited 0 (py "# Notes") []);
     mkdir_fault := fun _ => None;
     open_r_fault := fun _ => None;
     open_w_fault := fun _ => None |}.

(** The summarizer exits with an error; yt-dlp writes the audio of the
    default output folder. *)
Definition world_ollama_fails : World :=
  {| clock := py "12:00:00";
     whisper_import := None;
     yt_dlp := fun _ fs =>
       (<[path_div (Path (py "./")) AUDIO_NAME := py "mp3 data"]> fs,
        Exited 0 [] []);
     load_model := fun _ fs => (fs, None);
     transcribe := fun _ _ fs => (fs, Ok (py "Hello world."));
     ollama := fun _ _ fs => (fs, Exited 1 [] (py "model not found"));
     mkdir_fault := fun _ => None;
     open_r_fault := fun _ => None;
     open_w_fault := fun _ => None |}.

(** A fresh application on an empty disk, with a URL typed in. *)
Definition app_ready : App :=
  set_vars (with_url (py "https://youtu.be/abc")) (init ∅ ∅).

(** The same with only blanks typed in. *)
Definition app_blank : App :=
  set_vars (with_url (py "   ")) (init ∅ ∅).

(** After the button was clicked: one worker is running. *)
Definition app_busy : App := step app_ready Click.

(** [app_ready] with a transcript on disk. *)
Definition app_transcribed : App :=
  set_files {[transcript_file app_ready := py "Hello world."]} app_ready.

(** After a first completed run with the default model size ([base]), the
    user selects [tiny] and clicks again. *)
Definition app_tiny : App :=
  step (set_vars (with_model_size (py "tiny"))
          (worker (world_ok (py "first notes")) app_busy).1) Click.

(** ** The other buttons of the window

    [clear_log], [clear_notes], [browse_folder], [save_notes] and
    [copy_notes] run on the main thread.  Besides [self] and the disk they
    touch the clipboard and show warning boxes, and two of them open a file
    dialog, whose answer is the user's. *)

(** [self] with the clipboard of the root window and the warning boxes
    shown ([messagebox.showwarning]: title, message). *)
Record Desk := {
  app : App;
  clipboard : pystr;
  warnings : list (pystr * pystr);
}.

(** What the file dialogs answer, given their [initialdir]: the path chosen
    (empty when the user cancels), or an exception of Tk. *)
Record Dialogs := {
  askdirectory : pystr -> res pystr;
  asksaveasfilename : pystr -> res pystr;
}.

Definition with_output_folder (folder : pystr) (v : Vars) : Vars :=
  {| youtube_url := youtube_url v; model_size := model_size v;
     ollama_model := ollama_model v; output_folder := folder |}.

(** A method of the pipeline's monad, run on the [app] of a [Desk]. *)
Definition on_app {A} (m : M A) (g : Desk) : Desk * res A :=
  let '(s, r) := m (app g) in
  ({| app := s; clipboard := clipboard g; warnings := warnings g |}, r).

Definition showwarning (title message : pystr) (g : Desk) : Desk * res unit :=
  ({| app := app g; clipboard := clipboard g;
      warnings := warnings g ++ [(title, message)] |}, Ok tt).

Definition clipboard_clear (g : Desk) : Desk :=
  {| app := app g; clipboard := []; warnings := warnings g |}.

Definition clipboard_append (t : pystr) (g : Desk) : Desk :=
  {| app := app g; clipboard := clipboard g ++ t; warnings := warnings g |}.

(** [widget.get(1.0, tk.END)] of a Tk text widget: its content and the
    newline Tk keeps at the end. *)
Definition text_get (content : pystr) : pystr := content ++ NL.

(** [self.log_text.delete(1.0, tk.END)]. *)
Definition clear_log : M unit := modify (set_ui (with_log [])).

(** [self.notes_text.delete(1.0, tk.END)]. *)
Definition clear_notes : M unit := modify (set_ui (with_notes [])).

Definition browse_folder (d : Dialogs) : M unit :=
  initialdir ← gets (fun s => output_folder (vars s));
  match askdirectory d initialdir with
  | Raise e => raise e
  | Ok folder =>
      if truthy folder then modify (set_vars (with_output_folder folder))
      else mret tt
  end.

Definition save_notes (d : Dialogs) (w : World) (g : Desk)
  : Desk * res unit :=
  let notes_content := strip (text_get (notes_text (ui (app g)))) in
  if negb (truthy notes_content) then
    showwarning (py "Warning") (py "No notes to save") g
  else
    match asksaveasfilename d (output_folder (vars (app g))) with
    | Raise e => (g, Raise e)
    | Ok file_path =>
        if truthy file_path then
          on_app
            (try_except
               (write_text w (Path file_path) notes_content;;
                showinfo (py "Success") (py "Notes saved to " ++ file_path))
               (fun e =>
                  Some (showerror (py "Error")
                          (py "Failed to save notes: " ++ str_exn e))))
            g
        else (g, Ok tt)
    end.

Definition copy_notes (g : Desk) : Desk * res unit :=
  let notes_content := strip (text_get (notes_text (ui (app g)))) in
  if negb (truthy notes_content) then
    showwarning (py "Warning") (py "No notes to copy") g
  else
    on_app (showinfo (py "Success") (py "Notes copied to clipboard!"))
           (clipboard_append notes_content (clipboard_clear g)).

(** All characters of [s] are whitespace. *)
Definition blank (s : pystr) : bool := forallb is_space s.

(** The first and the last character of [s], if any, are not whitespace. *)
Definition trimmed (s : pystr) : Prop :=
  match s with [] => True | c :: _ => is_space c = false end ∧
  match rev s with [] => True | c :: _ => is_space c = false end.

(** A [Desk] around [s], with an empty clipboard. *)
Definition desk_of (s : App) : Desk :=
  {| app := s; clipboard := []; warnings := [] |}.

(** The user picks [/tmp/out] as folder and [/tmp/out/my notes.txt] to save
    to. *)
Definition dialogs_pick : Dialogs :=
  {| askdirectory := fun _ => Ok (py "/tmp/out");
     asksaveasfilename := fun _ => Ok (py "/tmp/out/my notes.txt") |}.



(** [openai-whisper] is not installed. *)
Definition world_no_whisper : World :=
  {| clock := py "12:00:00";
     whisper_import := Some (py "No module named 'whisper'");
     yt_dlp := fun _ fs => (fs, Exited 0 [] []);
     load_model := fun _ fs => (fs, None);
     transcribe := fun _ _ fs => (fs, Ok (py "Hello world."));
     ollama := fun _ _ fs => (fs, Exited 0 (py "# Notes") []);
     mkdir_fault := fun _ => None;
     open_r_fault := fun _ => None;
     open_w_fault := fun _ => None |}.

(** ollama is not installed. *)
Definition world_no_ollama : World :=
  {| clock := py "12:00:00";
     whisper_import := None;
     yt_dlp := fun _ fs => (fs, Exited 0 [] []);
     load_model := fun _ fs => (fs, None);
     transcribe := fun _ _ fs => (fs, Ok (py "Hello world."));
     ollama := fun _ _ fs =>
       (fs, NotStarted (FileNotFoundError
              (py "[Errno 2] No such file or directory: 'ollama'")));
     mkdir_fault := fun _ => None;
     open_r_fault := fun _ => None;
     open_w_fault := fun _ => None |}.


(** The message of [generate_notes] for a [FileNotFoundError]. *)
Definition OLLAMA_MISSING : pystr :=
  py "Ollama not found. Please install Ollama and ensure it's in your PATH".

(** Whisper cannot read the audio. *)
Definition world_bad_audio : World :=
  {| clock := py "12:00:00";
     whisper_import := None;
     yt_dlp := fun _ fs => (fs, Exited 0 [] []);
     load_model := fun _ fs => (fs, None);
     transcribe := fun _ _ fs =>
       (fs, Raise (OtherError (py "Failed to load audio")));
     ollama := fun _ _ fs => (fs, Exited 0 (py "# Notes") []);
     mkdir_fault := fun _ => None;
     open_r_fault := fun _ => None;
     open_w_fault := fun _ => None |}.

(** yt-dlp is there but may not be executed. *)
Definition world_yt_dlp_denied : World :=
  {| clock := py "12:00:00";
     whisper_import := None;
     yt_dlp := fun _ fs =>
       (fs, NotStarted (OtherError (py "[Errno 13] Permission denied: 'yt-dlp'")));
     load_model := fun _ fs => (fs, None);
     transcribe := fun _ _ fs => (fs, Ok (py "Hello world."));
     ollama := fun _ _ fs => (fs, Exited 0 (py "# Notes") []);
     mkdir_fault := fun _ => None;
     open_r_fault := fun _ => None;
     open_w_fault := fun _ => None |}.

(** The notes cannot be written: the folder is gone. *)
Definition world_folder_gone : World :=
  {| clock := py "12:00:00";
     whisper_import := None;
     yt_dlp := fun _ fs => (fs, Exited 0 [] []);
     load_model := fun _ fs => (fs, None);
     transcribe := fun _ _ fs => (fs, Ok (py "Hello world."));
     ollama := fun _ _ fs => (fs, Exited 0 (py "# Notes") []);
     mkdir_fault := fun _ => None;
     open_r_fault := fun _ => None;
     open_w_fault := fun _ =>
       Some (FileNotFoundError (py "[Errno 2] No such file or directory")) |}.

(** The status line and the message box of a completed run. *)
Definition COMPLETED : pystr * pystr :=
  (CHECK_MARK ++ py " Process completed successfully!", py "green").

Definition SUCCESS_BOX : dialog_kind * pystr * pystr :=
  (ShowInfo, py "Success",
   py "Lecture notes generated successfully!" ++ NL ++ NL
   ++ py "Check the 'Generated Notes' tab to view your notes.").




Arguments py : simpl never.
Arguments Path : simpl never.
Arguments path_div : simpl never.
Arguments path_str : simpl never.
Arguments download_cmd : simpl never.
Arguments ollama_cmd : simpl never.

(** * Properties *)

(** ** Strings *)

Lemma lstrip_nil (s : pystr) : lstrip s = [] ↔ forallb is_space s = true.
Proof.
  induction s as [|c s IH]; simpl; [done|].
  destruct (is_space c); simpl; [done|]. split; discriminate.
Qed.

Lemma lstrip_head (s : pystr) :
  match lstrip s with [] => True | c :: _ => is_space c = false end.
Proof.
  induction s as [|c s IH]; simpl; [done|].
  destruct (is_space c) eqn:E; [done|]. by rewrite E.
Qed.

Lemma forallb_space_rev (s : pystr) :
  forallb is_space (rev s) = forallb is_space s.
Proof.
  induction s as [|c s IH]; simpl; [done|].
  rewrite forallb_app, IH. simpl. rewrite andb_true_r. apply andb_comm.
Qed.

(** A string strips to the empty string exactly when all its characters are
    whitespace. *)
Lemma strip_nil (s : pystr) : strip s = [] ↔ forallb is_space s = true.
Proof.
  unfold strip, rstrip. split.
  - intros H. apply (f_equal (@rev N)) in H. rewrite rev_involutive in H.
    simpl in H. apply lstrip_nil in H. rewrite forallb_space_rev in H.
    pose proof (lstrip_head s) as Hh. apply lstrip_nil.
    destruct (lstrip s) as [|c t]; [done|].
    simpl in H. rewrite Hh in H. discriminate.
  - intros H. apply lstrip_nil in H. by rewrite H.
Qed.

Example strip_inner_blanks_stay :
  strip (py "  a b " ++ [0x3000%N]) = py "a b".
Proof. reflexivity. Qed.

Example strip_blank : strip [32; 9; 10; 0xA0; 0x3000]%N = [].
Proof. reflexivity. Qed.

(** ** Paths *)

Example notes_in_default_folder :
  path_str (path_div (Path (py "./")) NOTES_NAME) = py "lecture_notes.txt".
Proof. reflexivity. Qed.

Example notes_in_nested_folder :
  path_str (path_div (Path (py "/tmp//out/.")) NOTES_NAME)
  = py "/tmp/out/lecture_notes.txt".
Proof. reflexivity. Qed.

Lemma names_differ (d : path) :
  path_div d TRANSCRIPT_NAME ≠ path_div d NOTES_NAME.
Proof.
  unfold path_div. intros H.
  injection H as H. apply app_inj_tail in H as [_ H]. discriminate.
Qed.

(** ** Frames: what a method leaves alone *)

Section Preserves.
Context {X : Type} (f : App -> X).

Lemma preserves_ret {A} (a : A) : preserves f (mret a).
Proof. by intros s. Qed.

Lemma preserves_raise {A} (e : exn) : preserves f (@raise A e).
Proof. by intros s. Qed.

Lemma preserves_gets {A} (g : App -> A) : preserves f (gets g).
Proof. by intros s. Qed.

Lemma preserves_modify (g : App -> App) :
  (∀ s, f (g s) = f s) → preserves f (modify g).
Proof. intros H s. apply H. Qed.

Lemma preserves_bind {A B} (m : M A) (k : A -> M B) :
  preserves f m → (∀ a, preserves f (k a)) → preserves f (m ≫= k).
Proof.
  intros Hm Hk s. unfold mbind, M_bind. specialize (Hm s).
  destruct (m s) as [s' [a|e]]; simpl in *; [|done].
  by rewrite Hk.
Qed.

Lemma preserves_try_except {A} (m : M A) (h : exn -> option (M A)) :
  preserves f m →
  (∀ e, match h e with Some k => preserves f k | None => True end) →
  preserves f (try_except m h).
Proof.
  intros Hm Hh s. unfold try_except. specialize (Hm s).
  destruct (m s) as [s' [a|e]]; simpl in *; [done|].
  specialize (Hh e). destruct (h e) as [k|]; [|done].
  by rewrite Hh.
Qed.

Lemma preserves_try_finally {A} (m : M A) (fin : M unit) :
  preserves f m → preserves f fin → preserves f (try_finally m fin).
Proof.
  intros Hm Hf s. unfold try_finally. specialize (Hm s).
  destruct (m s) as [s' r]. specialize (Hf s').
  destruct (fin s') as [s'' [[]|e]]; simpl in *; congruence.
Qed.

Lemma preserves_staged {A} (st : Stage) (m : M A) :
  (∀ ev s, f (add_event ev s) = f s) →
  preserves f m → preserves f (staged st m).
Proof.
  intros Hev Hm s. unfold staged. specialize (Hm (add_event (Enter st) s)).
  destruct (m _) as [s' r]; simpl in *. by rewrite Hev, Hm.
Qed.

Lemma preserves_external {A} (tool : gmap path pystr → gmap path pystr * A) :
  (∀ fs s, f (set_files fs s) = f s) → preserves f (external tool).
Proof.
  intros H s. unfold external. destruct (tool (files s)) as [fs a]. apply H.
Qed.

End Preserves.

Ltac unfold_helpers :=
  unfold update_status, log_message, showerror, showinfo, emit, mkdir,
    read_text, write_text, subprocess_run_check, popen_communicate.

(** Goals [preserves f m] for an [f] that the setters involved leave alone
    by computation. *)
Ltac frame :=
  unfold_helpers;
  repeat first
    [ match goal with H : context [preserves] |- _ => apply H end
    | apply preserves_ret | apply preserves_raise | apply preserves_gets
    | apply preserves_modify; intros; reflexivity
    | apply preserves_external; intros; reflexivity
    | apply preserves_staged; [intros; reflexivity|]
    | apply preserves_bind; [|intros ?]
    | apply preserves_try_finally
    | apply preserves_try_except; [|intros []; cbn beta iota]
    | exact I
    | match goal with
      | |- preserves _ (match ?x with _ => _ end) => destruct x
      end ].

Lemma download_audio_threads w : preserves threads (download_audio w).
Proof. unfold download_audio. frame. Qed.

Lemma transcribe_audio_threads w p : preserves threads (transcribe_audio w p).
Proof. unfold transcribe_audio. frame. Qed.

Lemma generate_notes_threads w p : preserves threads (generate_notes w p).
Proof. unfold generate_notes. frame. Qed.

Lemma pipeline_steps_threads w : preserves threads (pipeline_steps w).
Proof.
  unfold pipeline_steps.
  pose proof (download_audio_threads w).
  pose proof (transcribe_audio_threads w).
  pose proof (generate_notes_threads w).
  frame.
Qed.

Lemma process_pipeline_threads w : preserves threads (process_pipeline w).
Proof.
  unfold process_pipeline, pipeline_failed.
  pose proof (pipeline_steps_threads w). frame.
Qed.

Lemma process_pipeline_vars w : preserves vars (process_pipeline w).
Proof.
  unfold process_pipeline, pipeline_failed, pipeline_steps, download_audio,
    transcribe_audio, generate_notes.
  frame.
Qed.

(** The [finally] clause: whatever the run did, the button is enabled again
    when [process_pipeline] ends. *)
Lemma process_pipeline_enables_button w s :
  process_btn (ui (process_pipeline w s).1) = Normal.
Proof.
  unfold process_pipeline, try_finally.
  by destruct (try_except _ _ s) as [s' r].
Qed.

(** ** Submission *)

Lemma start_processing_rejects s :
  strip (youtube_url (vars s)) = [] →
  start_processing s = (set_ui (with_dialog PLEASE_ENTER) s, Ok tt).
Proof.
  intros H. unfold start_processing, mbind, M_bind, gets. by rewrite H.
Qed.

Lemma start_processing_accepts s :
  strip (youtube_url (vars s)) ≠ [] →
  start_processing s =
    (set_threads (S (threads s))
       (set_ui (with_progress true) (set_ui (with_process_btn Disabled) s)),
     Ok tt).
Proof.
  intros H. unfold start_processing, mbind, M_bind, gets.
  by destruct (strip (youtube_url (vars s))).
Qed.

(** [process_pipeline] ends normally, whatever its steps did. *)
Lemma process_pipeline_returns w s : (process_pipeline w s).2 = Ok tt.
Proof.
  unfold process_pipeline, try_finally, try_except.
  by destruct (pipeline_steps w s) as [s1 [[]|e]].
Qed.

Lemma worker_threads w s : threads (worker w s).1 = pred (threads s).
Proof.
  unfold worker, mbind, M_bind, modify.
  pose proof (process_pipeline_threads w s) as Hth.
  pose proof (process_pipeline_returns w s) as Hr.
  destruct (process_pipeline w s) as [s' r]; simpl in *; subst r; simpl.
  by rewrite Hth.
Qed.

Lemma worker_enables_button w s : process_btn (ui (worker w s).1) = Normal.
Proof.
  unfold worker, mbind, M_bind, modify.
  pose proof (process_pipeline_enables_button w s) as Hbtn.
  pose proof (process_pipeline_returns w s) as Hr.
  by destruct (process_pipeline w s) as [s' r]; simpl in *; subst r.
Qed.

Lemma step_button_guards s a : button_guards s → button_guards (step s a).
Proof.
  unfold button_guards. intros Inv. destruct a as [f| | |w]; simpl; try done.
  - destruct (process_btn (ui s)) eqn:Hb; [|by rewrite Hb].
    destruct (decide (strip (youtube_url (vars s)) = [])) as [He|He].
    + rewrite start_processing_rejects by done. simpl. by rewrite Hb.
    + rewrite start_processing_accepts by done. simpl. by rewrite Inv.
  - destruct (threads s) as [|n] eqn:Ht; [by rewrite Ht|].
    rewrite worker_enables_button, worker_threads, Ht.
    destruct (process_btn (ui s)); [discriminate|]. by injection Inv as ->.
Qed.

Lemma run_button_guards s acts :
  button_guards s → button_guards (run s acts).
Proof.
  revert s. induction acts as [|a acts IH]; intros s Inv; [done|].
  simpl. apply IH. by apply step_button_guards.
Qed.

(** C1, as the code has it: the guard is the button, not [start_processing].
    In every state the application reaches from start-up through edits of
    the form, clicks on the button and runs of started workers, at most one
    pipeline run is active, and while one is active a click on the button
    starts nothing. *)
Theorem single_flight_through_button fs ds acts :
  let s := run (init fs ds) acts in
  threads s ≤ 1 ∧ (active s → step s Click = s).
Proof.
  intros s. assert (Inv : button_guards s) by (by apply run_button_guards).
  unfold button_guards, active in *. simpl.
  destruct (process_btn (ui s)); split; try lia; done.
Qed.

(** C1, as stated, fails: [start_processing] has no check of its own.  In
    the state after one accepted click a run is active, and a further call
    of [start_processing] starts a second worker. *)
Lemma start_processing_starts_second_run :
  active app_busy ∧ threads (start_processing app_busy).1 = 2.
Proof. unfold active. split; vm_compute; [lia | reflexivity]. Qed.

(** C5: with an empty URL [start_processing] only shows the error box: no
    file or directory is touched, no stage is entered and no tool is run
    (the trace is as before), no worker is started, and the button and the
    progress bar stay as they were. *)
Theorem empty_url_is_rejected s :
  youtube_url (vars s) = [] →
  let s' := (start_processing s).1 in
  (start_processing s).2 = Ok tt ∧
  files s' = files s ∧ dirs s' = dirs s ∧ trace s' = trace s ∧
  threads s' = threads s ∧ process_btn (ui s') = process_btn (ui s) ∧
  progress (ui s') = progress (ui s) ∧
  status_label (ui s') = status_label (ui s) ∧
  whisper_model s' = whisper_model s ∧ vars s' = vars s ∧
  dialogs (ui s') = dialogs (ui s) ++ [PLEASE_ENTER].
Proof.
  intros H. rewrite start_processing_rejects by (by rewrite H).
  by repeat split.
Qed.

Lemma empty_url_is_rejected_witness :
  youtube_url (vars (init ∅ ∅)) = [] ∧
  threads (start_processing (init ∅ ∅)).1 = 0 ∧
  dirs (start_processing (init ∅ ∅)).1 = ∅.
Proof.
  split; [reflexivity|].
  pose proof (empty_url_is_rejected (init ∅ ∅) eq_refl) as H.
  cbv zeta in H. destruct H as (_ & _ & Hd & _ & Ht & _).
  split; [exact Ht | exact Hd].
Defined.

(** C9: a URL that strips to the empty string (one made of whitespace only,
    [strip_nil]) is rejected as the empty one is: the same error box and
    nothing else (no file, directory, stage, tool or worker). *)
Theorem blank_url_is_rejected s :
  strip (youtube_url (vars s)) = [] →
  let s' := (start_processing s).1 in
  (start_processing s).2 = Ok tt ∧
  files s' = files s ∧ dirs s' = dirs s ∧ trace s' = trace s ∧
  threads s' = threads s ∧ process_btn (ui s') = process_btn (ui s) ∧
  progress (ui s') = progress (ui s) ∧
  status_label (ui s') = status_label (ui s) ∧
  whisper_model s' = whisper_model s ∧ vars s' = vars s ∧
  ui s' = ui (start_processing (set_vars (with_url []) s)).1.
Proof.
  intros H. rewrite start_processing_rejects by done.
  rewrite (start_processing_rejects (set_vars _ s)) by done.
  by repeat split.
Qed.

Lemma blank_url_is_rejected_witness :
  strip (youtube_url (vars app_blank)) = [] ∧
  threads (start_processing app_blank).1 = 0 ∧
  trace (start_processing app_blank).1 = [].
Proof.
  split; [reflexivity|].
  pose proof (blank_url_is_rejected app_blank eq_refl) as H.
  cbv zeta in H. destruct H as (_ & _ & _ & Htr & Ht & _).
  split; [exact Ht | exact Htr].
Defined.

(** ** Running a method symbolically *)

Section WP.
Context {A : Type} (s : App) (Q : App → res A → Prop).

Lemma wp_ret (a : A) : Q s (Ok a) → wp (mret a) s Q.
Proof. done. Qed.

Lemma wp_raise (e : exn) : Q s (Raise e) → wp (raise e) s Q.
Proof. done. Qed.

Lemma wp_gets (g : App → A) : Q s (Ok (g s)) → wp (gets g) s Q.
Proof. done. Qed.

Lemma wp_bind {B} (m : M B) (k : B → M A) :
  wp m s (λ s' r, match r with
                  | Ok b => wp (k b) s' Q
                  | Raise e => Q s' (Raise e)
                  end) →
  wp (m ≫= k) s Q.
Proof. unfold wp, mbind, M_bind. by destruct (m s) as [s' [b|e]]. Qed.

Lemma wp_try_except (m : M A) (h : exn → option (M A)) :
  wp m s (λ s' r, match r with
                  | Ok a => Q s' (Ok a)
                  | Raise e => match h e with
                               | Some k => wp k s' Q
                               | None => Q s' (Raise e)
                               end
                  end) →
  wp (try_except m h) s Q.
Proof.
  unfold wp, try_except. destruct (m s) as [s' [a|e]]; simpl; [done|].
  by destruct (h e).
Qed.

Lemma wp_try_finally (m : M A) (fin : M unit) :
  wp m s (λ s' r, wp fin s' (λ s'' r', match r' with
                                       | Ok _ => Q s'' r
                                       | Raise e => Q s'' (Raise e)
                                       end)) →
  wp (try_finally m fin) s Q.
Proof.
  unfold wp, try_finally. destruct (m s) as [s' r]; simpl.
  by destruct (fin s') as [s'' [[]|e]].
Qed.

Lemma wp_staged (st : Stage) (body : M A) :
  wp body (add_event (Enter st) s)
     (λ s' r, Q (add_event (outcome st r) s') r) →
  wp (staged st body) s Q.
Proof. unfold wp, staged. by destruct (body _) as [s' r]. Qed.

Lemma wp_external (tool : gmap path pystr → gmap path pystr * A) :
  (∀ fs a, tool (files s) = (fs, a) → Q (set_files fs s) (Ok a)) →
  wp (external tool) s Q.
Proof.
  unfold wp, external. intros H. destruct (tool (files s)) as [fs a] eqn:E.
  by apply H.
Qed.

End WP.

Lemma wp_gets_eq {A} (s : App) (Q : App → res A → Prop) (g : App → A) v :
  v = g s → Q s (Ok v) → wp (gets g) s Q.
Proof. by intros ->. Qed.

Lemma wp_modify_eq (s s' : App) (Q : App → res unit → Prop) (g : App → App) :
  s' = g s → Q s' (Ok tt) → wp (modify g) s Q.
Proof. by intros ->. Qed.

Lemma wp_staged_eq {A} (s s0 : App) (Q : App → res A → Prop) st (body : M A) :
  s0 = add_event (Enter st) s →
  wp body s0 (λ s' r, Q (add_event (outcome st r) s') r) →
  wp (staged st body) s Q.
Proof. intros ->. apply wp_staged. Qed.

Lemma wp_external_eq {A} (s : App) (Q : App → res A → Prop)
  (fs0 : gmap path pystr) (tool : gmap path pystr → gmap path pystr * A) :
  fs0 = files s →
  (∀ fs a, tool fs0 = (fs, a) → Q (set_files fs s) (Ok a)) →
  wp (external tool) s Q.
Proof. intros ->. apply wp_external. Qed.

(** A state or a value read from it, with the updates computed field by
    field. *)
Ltac norm t :=
  eval cbv beta iota delta
    [vars ui whisper_model files dirs trace threads process_btn
     progress status_label log_text notes_text dialogs youtube_url
     model_size ollama_model output_folder outcome
     set_ui set_vars set_files set_dirs add_event set_threads
     set_whisper_model with_process_btn with_progress with_status
     with_log with_notes with_dialog output_dir_of audio_file
     transcript_file notes_file] in t.

Ltac reduce_state :=
  cbv beta iota delta
    [vars ui whisper_model files dirs trace threads process_btn
     progress status_label log_text notes_text dialogs youtube_url
     model_size ollama_model output_folder outcome
     set_ui set_vars set_files set_dirs add_event set_threads
     set_whisper_model with_process_btn with_progress with_status
     with_log with_notes with_dialog output_dir_of audio_file
     transcript_file notes_file].

Ltac reduce_state_in H :=
  cbv beta iota delta
    [vars ui whisper_model files dirs trace threads process_btn
     progress status_label log_text notes_text dialogs youtube_url
     model_size ollama_model output_folder outcome
     set_ui set_vars set_files set_dirs add_event set_threads
     set_whisper_model with_process_btn with_progress with_status
     with_log with_notes with_dialog output_dir_of audio_file
     transcript_file notes_file] in H.

Ltac head_of t :=
  lazymatch t with
  | ?f _ => head_of f
  | _ => t
  end.

Ltac destruct_scrutinee x :=
  lazymatch x with
  | match ?y with _ => _ end => destruct_scrutinee y
  | _ => destruct x eqn:?
  end.

(** The postcondition is kept under a name, so that the goal stays small. *)
Ltac name_post :=
  lazymatch goal with
  | |- wp _ _ ?Q =>
      tryif is_var Q then idtac
      else (let Q' := fresh "Q" in set (Q' := Q))
  end.

Ltac wp_step :=
  match goal with
  | |- wp ?m ?s ?Q =>
      name_post;
      lazymatch m with
      | mret _ => apply wp_ret
      | raise _ => apply wp_raise
      | gets ?g =>
          let v := norm (g s) in
          apply (wp_gets_eq _ _ _ v); [reflexivity|]
      | modify ?g =>
          let s' := norm (g s) in
          apply (wp_modify_eq _ s'); [reflexivity|]
      | _ ≫= _ => apply wp_bind
      | try_except _ _ => apply wp_try_except
      | try_finally _ _ => apply wp_try_finally
      | staged ?st _ =>
          let s' := norm (add_event (Enter st) s) in
          apply (wp_staged_eq _ s'); [reflexivity|]
      | external _ =>
          let fs0 := norm (files s) in
          let H := fresh "Htool" in
          apply (wp_external_eq _ _ fs0); [reflexivity|intros ? ? H]
      | match ?x with _ => _ end => destruct_scrutinee x
      | _ => let h := head_of m in unfold h at 1
      end
  | |- ?Q ?s ?r =>
      is_var Q; unfold Q;
      let s' := norm s in change s with s'
  | |- match ?x with _ => _ end => destruct_scrutinee x
  end;
  cbn beta iota.

(** Runs the method of a goal [wp m s Q] to its ends.  The state is to be
    taken apart first, so that every update is computed field by field. *)
Ltac wp_run := repeat wp_step; reduce_state.

Ltac take_apart s :=
  let v := fresh "v" in let u := fresh "u" in
  destruct s as [v u ? ? ? ? ?]; destruct u; destruct v.

(** The events of a leaf: [trace0 ++ e1 ++ ... ++ en], minus [trace0]. *)
Ltac leaf_events := rewrite <- ?app_assoc, ?drop_app_length, ?drop_all.


(** Closes the goals on integers left by the tests of a return code. *)
Ltac return_codes :=
  repeat match goal with
         | H : (_ =? _)%Z = true |- _ => apply Z.eqb_eq in H
         | H : (_ =? _)%Z = false |- _ => apply Z.eqb_neq in H
         end.

(** ** The download stage *)

(** C8: [download_audio] fails when yt-dlp cannot be started because it is
    missing, and when it exits with a code other than zero; the first
    failure says that yt-dlp is not installed, the second carries the
    standard error of the tool after a fixed prefix, and the two messages
    are never equal.  When the tool exits with zero the stage returns the
    audio path. *)
Theorem download_failures_are_told_apart w s :
  let cmd := download_cmd (audio_file s) (youtube_url (vars s)) in
  let out := (yt_dlp w cmd (files s)).2 in
  let r := (download_audio w s).2 in
  (∀ msg, out = NotStarted (FileNotFoundError msg) →
          r = Raise (Exception YT_DLP_MISSING)) ∧
  (∀ rc stdout stderr, out = Exited rc stdout stderr → rc ≠ 0%Z →
          r = Raise (Exception (py "Failed to download audio: " ++ stderr))) ∧
  (∀ stdout stderr, out = Exited 0 stdout stderr → r = Ok (audio_file s)) ∧
  (∀ stderr, YT_DLP_MISSING ≠ py "Failed to download audio: " ++ stderr).
Proof.
  cbv zeta.
  change (wp (download_audio w) s (λ _ r,
    let out := (yt_dlp w (download_cmd (audio_file s) (youtube_url (vars s)))
                  (files s)).2 in
    (∀ msg, out = NotStarted (FileNotFoundError msg) →
            r = Raise (Exception YT_DLP_MISSING)) ∧
    (∀ rc stdout stderr, out = Exited rc stdout stderr → rc ≠ 0%Z →
            r = Raise (Exception (py "Failed to download audio: " ++ stderr))) ∧
    (∀ stdout stderr, out = Exited 0 stdout stderr → r = Ok (audio_file s)) ∧
    (∀ stderr, YT_DLP_MISSING ≠ py "Failed to download audio: " ++ stderr))).
  take_apart s. wp_run.
  all: rewrite Htool; cbn [snd].
  all: repeat split; intros; simplify_eq; try done.
  all: return_codes; done.
Qed.

Lemma download_failures_are_told_apart_witness :
  (download_audio world_no_yt_dlp app_ready).2
    = Raise (Exception YT_DLP_MISSING) ∧
  (download_audio world_bad_url app_ready).2
    = Raise (Exception (py "Failed to download audio: "
                        ++ py "ERROR: Unsupported URL")).
Proof.
  split.
  - eapply (download_failures_are_told_apart world_no_yt_dlp app_ready).
    reflexivity.
  - eapply (proj1 (proj2
      (download_failures_are_told_apart world_bad_url app_ready)));
      [reflexivity | done].
Defined.

(** ** The transcription stage *)

(** A model in the cache is the one that transcribes, whatever size the form
    asks for; nothing is loaded. *)
Lemma transcribe_reuses_cached_model w s m audio :
  whisper_import w = None →
  whisper_model s = Some m →
  let evs := events_of (transcribe_audio w audio) s in
  models_used evs = [m] ∧ models_loaded evs = [].
Proof.
  intros Hi Hm. unfold events_of. cbv zeta.
  change (wp (transcribe_audio w audio) s (λ s' _,
    models_used (drop (length (trace s)) (trace s')) = [m] ∧
    models_loaded (drop (length (trace s)) (trace s')) = [])).
  take_apart s. reduce_state_in Hm. wp_run.
  all: simplify_eq; leaf_events; by split.
Qed.

(** With an empty cache the model of the requested size is loaded and
    used. *)
Lemma transcribe_loads_requested_model w s audio :
  whisper_import w = None →
  whisper_model s = None →
  (load_model w (model_size (vars s)) (files s)).2 = None →
  let evs := events_of (transcribe_audio w audio) s in
  models_used evs = [{| model_name := model_size (vars s) |}] ∧
  models_loaded evs = [model_size (vars s)].
Proof.
  intros Hi Hm Hl. unfold events_of. cbv zeta.
  change (wp (transcribe_audio w audio) s (λ s' _,
    models_used (drop (length (trace s)) (trace s'))
      = [{| model_name := model_size (vars s) |}] ∧
    models_loaded (drop (length (trace s)) (trace s'))
      = [model_size (vars s)])).
  take_apart s. reduce_state_in Hm. reduce_state_in Hl. wp_run.
  all: simplify_eq; leaf_events; try by split.
  all: rewrite Htool in Hl; simplify_eq/=.
Qed.

(** C3 does not hold of the code: after a completed run with the size
    [base], the user selects [tiny] and clicks again; the second run
    transcribes (and returns) with the cached [base] model, and loads
    nothing. *)
Theorem cached_model_ignores_requested_size :
  let evs := run_events (world_ok (py "second notes")) app_tiny in
  model_size (vars app_tiny) = py "tiny" ∧
  returned Transcribe evs = true ∧
  models_used evs = [{| model_name := py "base" |}] ∧
  models_loaded evs = [].
Proof. vm_compute. by repeat split. Qed.

(** ** The summarization stage *)



(** ** The pipeline *)

Example run_with_rejected_url :
  run_events world_bad_url app_ready =
    [Enter Download;
     RunYtDlp (download_cmd (audio_file app_ready) (py "https://youtu.be/abc"));
     Raised Download]
  ∧ status_label (ui (process_pipeline world_bad_url app_ready).1) =
      (CROSS_MARK
       ++ py " Error: Failed to download audio: ERROR: Unsupported URL",
       py "red").
Proof. by vm_compute. Qed.

Example run_to_the_end :
  let s' := (process_pipeline (world_ok (py "# Notes")) app_ready).1 in
  written (run_events (world_ok (py "# Notes")) app_ready)
    = [transcript_file app_ready; notes_file app_ready]
  ∧ files s' !! transcript_file app_ready = Some (py "Hello world.")
  ∧ files s' !! notes_file app_ready = Some (py "# Notes")
  ∧ process_btn (ui s') = Normal.
Proof. by vm_compute. Qed.

(** C4: a stage that raises ends the run.  If [download_audio] raised,
    neither [transcribe_audio] nor [generate_notes] was called; if
    [transcribe_audio] raised, [generate_notes] was not called; no stage is
    called twice; and the exception of a stage is the last event of the run:
    no stage, tool or write comes after it. *)
Theorem failure_aborts_remaining_stages w s :
  let evs := run_events w s in
  (raised Download evs = true →
   entered Transcribe evs = false ∧ entered Summarize evs = false) ∧
  (raised Transcribe evs = true → entered Summarize evs = false) ∧
  (∀ st, times_entered st evs ≤ 1) ∧
  (∀ st, raised st evs = true → last evs = Some (Raised st)).
Proof.
  unfold run_events, events_of.
  change (wp (process_pipeline w) s (λ s' _,
    let evs := drop (length (trace s)) (trace s') in
    (raised Download evs = true →
     entered Transcribe evs = false ∧ entered Summarize evs = false) ∧
    (raised Transcribe evs = true → entered Summarize evs = false) ∧
    (∀ st, times_entered st evs ≤ 1) ∧
    (∀ st, raised st evs = true → last evs = Some (Raised st)))).
  take_apart s. wp_run.
  all: leaf_events; cbv zeta.
  all: repeat split;
    try lazymatch goal with |- ∀ _ : Stage, _ => intros [] end;
    try (intros H; cbn in H; try discriminate H);
    cbn; try lia; try (by repeat split).
Qed.






(** A run that reaches the end of [generate_notes], with a summarizer that
    answers [notes]: the program wrote the transcript and the notes, once
    each, yt-dlp was called once, with the audio path after [-o], and the
    notes file and the notes tab hold [notes]. *)
Lemma completed_run_artifacts w s notes :
  (∀ cmd stdin fs, ∃ fs' rc err,
     ollama w cmd stdin fs = (fs', Exited rc notes err)) →
  let s' := (process_pipeline w s).1 in
  let evs := run_events w s in
  returned Summarize evs = true →
  written evs = [transcript_file s; notes_file s] ∧
  yt_dlp_calls evs = [download_cmd (audio_file s) (youtube_url (vars s))] ∧
  files s' !! notes_file s = Some notes ∧
  notes_text (ui s') = notes.
Proof.
  intros Hmock. unfold run_events, events_of. cbv zeta.
  change (wp (process_pipeline w) s (λ s' _,
    returned Summarize (drop (length (trace s)) (trace s')) = true →
    written (drop (length (trace s)) (trace s'))
      = [transcript_file s; notes_file s] ∧
    yt_dlp_calls (drop (length (trace s)) (trace s'))
      = [download_cmd (audio_file s) (youtube_url (vars s))] ∧
    files s' !! notes_file s = Some notes ∧
    notes_text (ui s') = notes)).
  take_apart s. wp_run.
  all: leaf_events; intros Hdone; try discriminate Hdone.
  all: match goal with
       | H : ollama _ ?c ?i ?f = _ |- _ =>
           destruct (Hmock c i f) as (? & ? & ? & Hm);
           rewrite Hm in H; simplify_eq
       end.
  all: repeat split; try done; apply lookup_insert_eq.
Qed.



(** What the tools called in a leaf left of the file [p], from
    [tools_leave]. *)
Ltac tool_frames Hy Hl Ht Ho :=
  try match goal with
      | H : yt_dlp _ ?c ?f = _ |- _ =>
          let X := fresh "Xy" in
          pose proof (Hy c f) as X; rewrite H in X; cbn [fst] in X
      end;
  try match goal with
      | H : load_model _ ?c ?f = _ |- _ =>
          let X := fresh "Xl" in
          pose proof (Hl c f) as X; rewrite H in X; cbn [fst] in X
      end;
  try match goal with
      | H : transcribe _ ?m ?a ?f = _ |- _ =>
          let X := fresh "Xt" in
          pose proof (Ht m a f) as X; rewrite H in X; cbn [fst] in X
      end;
  try match goal with
      | H : ollama _ ?c ?i ?f = _ |- _ =>
          let X := fresh "Xo" in
          pose proof (Ho c i f) as X; rewrite H in X; cbn [fst] in X
      end.

(** C10: provided no external tool touches [lecture_notes.txt], a run
    replaces the notes shown and the notes file only after ollama exited
    with code zero.  Either both are as before the run, or the one call of
    ollama in the run exited with zero; they are as before when
    [download_audio] raised, when [transcribe_audio] raised, and when
    ollama cannot exit with zero (it is missing or fails). *)
Theorem notes_replaced_only_after_success w s :
  tools_leave w (notes_file s) →
  let s' := (process_pipeline w s).1 in
  let evs := run_events w s in
  let unchanged :=
    notes_text (ui s') = notes_text (ui s) ∧
    files s' !! notes_file s = files s !! notes_file s in
  (unchanged ∨
   ∃ cmd stdin fs fs' out err,
     ollama w cmd stdin fs = (fs', Exited 0 out err) ∧
     ollama_calls evs = [(cmd, stdin)]) ∧
  (raised Download evs = true → unchanged) ∧
  (raised Transcribe evs = true → unchanged) ∧
  ((∀ cmd stdin fs out err, (ollama w cmd stdin fs).2 ≠ Exited 0 out err) →
   unchanged).
Proof.
  intros (Hy & Hl & Ht & Ho). unfold run_events, events_of. cbv zeta.
  change (wp (process_pipeline w) s (λ s' _,
    (notes_text (ui s') = notes_text (ui s) ∧
     files s' !! notes_file s = files s !! notes_file s ∨
     ∃ cmd stdin fs fs' out err,
       ollama w cmd stdin fs = (fs', Exited 0 out err) ∧
       ollama_calls (drop (length (trace s)) (trace s')) = [(cmd, stdin)]) ∧
    (raised Download (drop (length (trace s)) (trace s')) = true →
     notes_text (ui s') = notes_text (ui s) ∧
     files s' !! notes_file s = files s !! notes_file s) ∧
    (raised Transcribe (drop (length (trace s)) (trace s')) = true →
     notes_text (ui s') = notes_text (ui s) ∧
     files s' !! notes_file s = files s !! notes_file s) ∧
    ((∀ cmd stdin fs out err,
        (ollama w cmd stdin fs).2 ≠ Exited 0 out err) →
     notes_text (ui s') = notes_text (ui s) ∧
     files s' !! notes_file s = files s !! notes_file s))).
  pose proof (names_differ (output_dir_of s)) as Hne.
  take_apart s. reduce_state_in Hy. reduce_state_in Hl. reduce_state_in Ht.
  reduce_state_in Ho. reduce_state_in Hne. wp_run.
  all: leaf_events; tool_frames Hy Hl Ht Ho.
  all: rewrite ?lookup_insert_ne by exact Hne.
  all: repeat match goal with
              | X : context [<[_:=_]> _ !! _] |- _ =>
                  rewrite lookup_insert_ne in X by exact Hne
              end.
  all: repeat match goal with
              | H : (_ =? _)%Z = true |- _ => apply Z.eqb_eq in H; subst
              end.
  all: split; [|split; [|split]].
  all: try (intros H; cbn in H; try discriminate H).
  all: try (split; [reflexivity | congruence]).
  all: try (left; split; [reflexivity | congruence]).
  all: try (right; do 6 eexists; split; [eassumption | reflexivity]).
  all: exfalso;
    match goal with
    | Hto : ollama _ ?c ?i ?f = (_, Exited 0 ?o ?e) |- _ =>
        apply (H c i f o e); by rewrite Hto
    end.
Qed.

Lemma notes_replaced_only_after_success_witness :
  let w := world_ollama_fails in
  let s1 := (process_pipeline (world_ok (py "first notes")) app_ready).1 in
  let s2 := (process_pipeline w s1).1 in
  notes_text (ui s1) = py "first notes" ∧
  notes_text (ui s2) = py "first notes" ∧
  files s2 !! notes_file s1 = Some (py "first notes").
Proof.
  intros w s1 s2. split; [vm_compute; reflexivity|].
  assert (Hleave : tools_leave w (notes_file s1)).
  { repeat split; intros; try reflexivity.
    cbn [yt_dlp w world_ollama_fails fst].
    apply lookup_insert_ne. vm_compute. discriminate. }
  destruct (notes_replaced_only_after_success w s1 Hleave)
    as (_ & _ & _ & H).
  destruct H as [Hn Hf].
  - intros cmd stdin fs out err. cbn. discriminate.
  - subst s2. split; [rewrite Hn | rewrite Hf]; vm_compute; reflexivity.
Defined.

(** * The rest of the window, and more on the pipeline *)

Ltac clear_posts := repeat match goal with Q := _ |- _ => clear Q end.

(** ** What [strip] keeps *)

Lemma lstrip_split (s : pystr) :
  ∃ pre, s = pre ++ lstrip s ∧ blank pre = true.
Proof.
  induction s as [|c s (pre & E & B)]; [by exists []|]. simpl.
  destruct (is_space c) eqn:Hc.
  - exists (c :: pre). split; [by rewrite E at 1|]. simpl. by rewrite Hc.
  - by exists [].
Qed.



Lemma strip_trimmed (s : pystr) : trimmed (strip s).
Proof.
  unfold trimmed, strip, rstrip. rewrite rev_involutive. split.
  - pose proof (lstrip_head s) as H.
    destruct (lstrip_split (rev (lstrip s))) as (post & E & B).
    apply (f_equal (@rev N)) in E. rewrite rev_involutive, rev_app_distr in E.
    destruct (rev (lstrip (rev (lstrip s)))) as [|c t] eqn:Er; [done|].
    rewrite E in H. exact H.
  - apply lstrip_head.
Qed.

(** ** Saving, copying and clearing the notes; choosing the folder *)

Lemma blank_text_get (t : pystr) : blank (text_get t) = blank t.
Proof.
  unfold blank, text_get. rewrite forallb_app. simpl. by rewrite !andb_true_r.
Qed.

Lemma strip_text_get_nil (t : pystr) :
  strip (text_get t) = [] ↔ blank t = true.
Proof. rewrite strip_nil. fold (blank (text_get t)). by rewrite blank_text_get. Qed.

Lemma truthy_strip_text_get (t : pystr) :
  truthy (strip (text_get t)) = negb (blank t).
Proof.
  destruct (blank t) eqn:B.
  - apply strip_text_get_nil in B. by rewrite B.
  - destruct (strip (text_get t)) eqn:E; [|done].
    apply strip_text_get_nil in E. congruence.
Qed.


(** X1: when the notes tab holds only whitespace (or nothing), [save_notes]
    shows the warning "No notes to save" and does nothing else: the answer
    does not depend on the dialog or on the disk, so no dialog is opened and
    no file is written. *)
Theorem save_notes_blank d w g :
  blank (notes_text (ui (app g))) = true →
  save_notes d w g =
    ({| app := app g; clipboard := clipboard g;
        warnings := warnings g ++ [(py "Warning", py "No notes to save")] |},
     Ok tt).
Proof.
  intros B. unfold save_notes. by rewrite truthy_strip_text_get, B.
Qed.

Lemma save_notes_blank_witness :
  blank (notes_text (ui (app (desk_of app_ready)))) = true ∧
  warnings (save_notes dialogs_pick (world_ok []) (desk_of app_ready)).1
    = [(py "Warning", py "No notes to save")] ∧
  files (app (save_notes dialogs_pick (world_ok []) (desk_of app_ready)).1)
    = ∅.
Proof.
  split; [reflexivity|].
  rewrite (save_notes_blank dialogs_pick (world_ok []) (desk_of app_ready))
    by reflexivity.
  split; reflexivity.
Defined.







(** X5: [copy_notes] never fails and never touches a file or the tab.  With
    only whitespace in the tab it warns "No notes to copy" and the clipboard
    keeps its content; otherwise the clipboard holds exactly the stripped
    notes (what it held before is gone, nothing is appended to it), and one
    information box is shown. *)
Theorem copy_notes_replaces_clipboard g :
  let notes := notes_text (ui (app g)) in
  let g' := (copy_notes g).1 in
  (copy_notes g).2 = Ok tt ∧
  files (app g') = files (app g) ∧
  notes_text (ui (app g')) = notes ∧
  if blank notes then
    clipboard g' = clipboard g ∧
    warnings g' = warnings g ++ [(py "Warning", py "No notes to copy")] ∧
    dialogs (ui (app g')) = dialogs (ui (app g))
  else
    clipboard g' = strip (text_get notes) ∧
    clipboard g' ≠ [] ∧ trimmed (clipboard g') ∧
    warnings g' = warnings g ∧
    dialogs (ui (app g')) =
      dialogs (ui (app g)) ++
      [(ShowInfo, py "Success", py "Notes copied to clipboard!")].
Proof.
  cbv zeta. unfold copy_notes. rewrite truthy_strip_text_get.
  destruct (blank (notes_text (ui (app g)))) eqn:B; simpl.
  - by repeat split.
  - repeat split; try apply strip_trimmed.
    intros E. apply strip_text_get_nil in E. congruence.
Qed.

(** X6: after [clear_notes] there is nothing to save or to copy: both
    [save_notes] and [copy_notes] only warn, whatever the dialog and the disk
    are; and [clear_notes] touches neither the files nor the log. *)
Theorem cleared_notes_are_not_saved_or_copied d w g :
  let g0 := (on_app clear_notes g).1 in
  (save_notes d w g0).1 =
    {| app := app g0; clipboard := clipboard g;
       warnings := warnings g ++ [(py "Warning", py "No notes to save")] |} ∧
  (copy_notes g0).1 =
    {| app := app g0; clipboard := clipboard g;
       warnings := warnings g ++ [(py "Warning", py "No notes to copy")] |} ∧
  files (app g0) = files (app g) ∧ log_text (ui (app g0)) = log_text (ui (app g)).
Proof. by repeat split. Qed.

(** X7: [browse_folder] changes the output folder to the folder chosen, and
    nothing else; when the dialog is cancelled (empty answer) the folder is
    kept, and an exception of the dialog leaves the method. *)
Theorem browse_folder_sets_only_the_folder d s :
  let s' := (browse_folder d s).1 in
  let answer := askdirectory d (output_folder (vars s)) in
  output_folder (vars s') =
    match answer with
    | Ok (c :: folder) => c :: folder
    | _ => output_folder (vars s)
    end ∧
  (browse_folder d s).2 =
    match answer with Ok _ => Ok tt | Raise e => Raise e end ∧
  youtube_url (vars s') = youtube_url (vars s) ∧
  model_size (vars s') = model_size (vars s) ∧
  ollama_model (vars s') = ollama_model (vars s) ∧
  ui s' = ui s ∧ files s' = files s ∧ dirs s' = dirs s ∧
  trace s' = trace s ∧ threads s' = threads s ∧
  whisper_model s' = whisper_model s.
Proof.
  cbv zeta. unfold browse_folder, mbind, M_bind, gets. simpl.
  destruct (askdirectory d (output_folder (vars s))) as [[|c folder]|e];
    by repeat split.
Qed.

(** X8: after a folder was chosen with [browse_folder], a run that
    completes writes its transcript and its notes under that folder, and the
    notes file there holds the answer of the summarizer. *)
Theorem run_after_browse_writes_in_chosen_folder d w s folder notes :
  askdirectory d (output_folder (vars s)) = Ok folder →
  folder ≠ [] →
  (∀ cmd stdin fs, ∃ fs' rc err,
     ollama w cmd stdin fs = (fs', Exited rc notes err)) →
  let s1 := (browse_folder d s).1 in
  let s2 := (process_pipeline w s1).1 in
  returned Summarize (run_events w s1) = true →
  written (run_events w s1) =
    [path_div (Path folder) TRANSCRIPT_NAME;
     path_div (Path folder) NOTES_NAME] ∧
  files s2 !! path_div (Path folder) NOTES_NAME = Some notes.
Proof.
  intros Hd Hf Hmock s1 s2 Hdone.
  assert (Hv : output_folder (vars s1) = folder).
  { subst s1. unfold browse_folder, mbind, M_bind, gets. simpl. rewrite Hd.
    by destruct folder. }
  destruct (completed_run_artifacts w s1 notes Hmock Hdone)
    as (Hw & _ & Hn & _).
  unfold transcript_file, notes_file, output_dir_of in *. rewrite Hv in *.
  by split.
Qed.

Lemma run_after_browse_writes_in_chosen_folder_witness :
  let s1 := (browse_folder dialogs_pick app_ready).1 in
  files (process_pipeline (world_ok (py "# Notes")) s1).1
    !! path_div (Path (py "/tmp/out")) NOTES_NAME = Some (py "# Notes").
Proof.
  eapply (run_after_browse_writes_in_chosen_folder dialogs_pick
            (world_ok (py "# Notes")) app_ready (py "/tmp/out")
            (py "# Notes")).
  - reflexivity.
  - done.
  - intros cmd stdin fs. by exists fs, 0%Z, [].
  - vm_compute. reflexivity.
Defined.

(** ** More on the stage methods *)

(** X9: when [import whisper] failed, [transcribe_audio] raises "Whisper
    not available:" with the import error, before anything else: no model
    is loaded, no tool is called, no line is logged, no file changes. *)
Theorem transcribe_without_whisper w s audio err :
  whisper_import w = Some err →
  let s' := (transcribe_audio w audio s).1 in
  (transcribe_audio w audio s).2
    = Raise (Exception (py "Whisper not available: " ++ err)) ∧
  events_of (transcribe_audio w audio) s
    = [Enter Transcribe; Raised Transcribe] ∧
  files s' = files s ∧ whisper_model s' = whisper_model s ∧ ui s' = ui s.
Proof.
  intros Hi. cbv zeta. unfold events_of.
  change (wp (transcribe_audio w audio) s (λ s' r,
    r = Raise (Exception (py "Whisper not available: " ++ err)) ∧
    drop (length (trace s)) (trace s')
      = [Enter Transcribe; Raised Transcribe] ∧
    files s' = files s ∧ whisper_model s' = whisper_model s ∧ ui s' = ui s)).
  take_apart s. wp_run.
  all: simplify_eq; leaf_events; by repeat split.
Qed.

Lemma transcribe_without_whisper_witness :
  (transcribe_audio world_no_whisper (audio_file app_ready) app_ready).2
  = Raise (Exception (py "Whisper not available: "
                      ++ py "No module named 'whisper'")).
Proof.
  eapply (transcribe_without_whisper world_no_whisper app_ready). reflexivity.
Defined.



(** X11: when [transcribe_audio] returns, it returns the transcript path;
    the transcript file holds exactly the text whisper gave for the audio
    path (whatever the file held before), and it is the only file the
    program wrote; the cache holds the model used, which is the cached one
    if there was one and else one of the requested size. *)
Theorem transcribe_success_fills_file_and_cache w s audio s' p :
  transcribe_audio w audio s = (s', Ok p) →
  p = transcript_file s ∧
  ∃ m fs fs' text,
    transcribe w m (path_str audio) fs = (fs', Ok text) ∧
    files s' = <[p := text]> fs' ∧
    whisper_model s' = Some m ∧
    match whisper_model s with
    | Some cached => m = cached
    | None => model_name m = model_size (vars s)
    end ∧
    written (events_of (transcribe_audio w audio) s) = [p].
Proof.
  intros H.
  assert (H1 : (transcribe_audio w audio s).1 = s') by (by rewrite H).
  assert (H2 : (transcribe_audio w audio s).2 = Ok p) by (by rewrite H).
  clear H. revert H1 H2. unfold events_of.
  change (wp (transcribe_audio w audio) s (λ s1 r,
    s1 = s' → r = Ok p →
    p = transcript_file s ∧
    ∃ m fs fs' text,
      transcribe w m (path_str audio) fs = (fs', Ok text) ∧
      files s' = <[p := text]> fs' ∧
      whisper_model s' = Some m ∧
      match whisper_model s with
      | Some cached => m = cached
      | None => model_name m = model_size (vars s)
      end ∧
      written (drop (length (trace s)) (trace s1)) = [p])).
  take_apart s. wp_run.
  all: intros <- Hr; simplify_eq; leaf_events.
  all: split; [reflexivity|]; do 4 eexists; split; [eassumption|].
  all: by repeat split.
Qed.

Lemma transcribe_success_fills_file_and_cache_witness :
  let r := transcribe_audio (world_ok []) (audio_file app_ready) app_ready in
  files r.1 !! transcript_file app_ready = Some (py "Hello world.") ∧
  whisper_model r.1 = Some {| model_name := py "base" |}.
Proof.
  intros r.
  assert (E : r = (r.1, Ok (transcript_file app_ready)))
    by (vm_compute; reflexivity).
  destruct (transcribe_success_fills_file_and_cache (world_ok [])
              app_ready (audio_file app_ready) r.1
              (transcript_file app_ready) E)
    as (_ & m & fs & fs' & text & Ht & Hf & Hm & Hsize & _).
  simpl in Ht. injection Ht as <- <-. rewrite Hf, Hm.
  rewrite lookup_insert_eq. split; [done|].
  destruct m as [n]. simpl in Hsize. by rewrite Hsize.
Defined.

(** X12: the messages of [generate_notes], with the transcript readable.
    ollama missing: "Ollama not found...".  ollama exits with a code other
    than zero: "Note generation failed: Ollama error:" and its standard
    error (the [raise] of the [try] body is caught by the [except] below
    it).  ollama exits with zero but the notes file cannot be opened for a
    [FileNotFoundError]: again "Ollama not found...", since that clause
    covers the whole [try].  Otherwise the notes path is returned. *)
Theorem generate_notes_failure_messages w s tf transcript :
  open_r_fault w tf = None →
  files s !! tf = Some transcript →
  let cmd := ollama_cmd (ollama_model (vars s)) in
  let out := (ollama w cmd (PROMPT_TEMPLATE ++ transcript) (files s)).2 in
  let r := (generate_notes w tf s).2 in
  (∀ msg, out = NotStarted (FileNotFoundError msg) →
          r = Raise (Exception OLLAMA_MISSING)) ∧
  (∀ rc stdout stderr, out = Exited rc stdout stderr → rc ≠ 0%Z →
          r = Raise (Exception (py "Note generation failed: "
                                ++ py "Ollama error: " ++ stderr))) ∧
  (∀ stdout stderr msg, out = Exited 0 stdout stderr →
          open_w_fault w (notes_file s) = Some (FileNotFoundError msg) →
          r = Raise (Exception OLLAMA_MISSING)) ∧
  (∀ stdout stderr, out = Exited 0 stdout stderr →
          open_w_fault w (notes_file s) = None → r = Ok (notes_file s)).
Proof.
  intros Hr Hf. cbv zeta.
  change (wp (generate_notes w tf) s (λ _ r,
    let out := (ollama w (ollama_cmd (ollama_model (vars s)))
                  (PROMPT_TEMPLATE ++ transcript) (files s)).2 in
    (∀ msg, out = NotStarted (FileNotFoundError msg) →
            r = Raise (Exception OLLAMA_MISSING)) ∧
    (∀ rc stdout stderr, out = Exited rc stdout stderr → rc ≠ 0%Z →
            r = Raise (Exception (py "Note generation failed: "
                                  ++ py "Ollama error: " ++ stderr))) ∧
    (∀ stdout stderr msg, out = Exited 0 stdout stderr →
            open_w_fault w (notes_file s) = Some (FileNotFoundError msg) →
            r = Raise (Exception OLLAMA_MISSING)) ∧
    (∀ stdout stderr, out = Exited 0 stdout stderr →
            open_w_fault w (notes_file s) = None → r = Ok (notes_file s)))).
  take_apart s. reduce_state_in Hf. wp_run.
  all: simplify_eq; unfold make_prompt in *; rewrite Htool; cbn [snd].
  all: repeat split; intros; simplify_eq; try done.
  all: return_codes; done.
Qed.

Lemma generate_notes_failure_messages_witness :
  (generate_notes world_no_ollama (transcript_file app_ready)
     app_transcribed).2 = Raise (Exception OLLAMA_MISSING) ∧
  (generate_notes world_ollama_fails (transcript_file app_ready)
     app_transcribed).2
    = Raise (Exception (py "Note generation failed: Ollama error: "
                        ++ py "model not found")) ∧
  (generate_notes world_folder_gone (transcript_file app_ready)
     app_transcribed).2 = Raise (Exception OLLAMA_MISSING).
Proof.
  split; [|split].
  - eapply (proj1 (generate_notes_failure_messages world_no_ollama
              app_transcribed (transcript_file app_ready)
              (py "Hello world.") eq_refl eq_refl)); reflexivity.
  - eapply (proj1 (proj2 (generate_notes_failure_messages world_ollama_fails
              app_transcribed (transcript_file app_ready)
              (py "Hello world.") eq_refl eq_refl))); [reflexivity|done].
  - eapply (proj1 (proj2 (proj2 (generate_notes_failure_messages
              world_folder_gone app_transcribed (transcript_file app_ready)
              (py "Hello world.") eq_refl eq_refl)))); reflexivity.
Defined.

(** X13: when the transcript file does not exist, [generate_notes] raises
    the [FileNotFoundError] of [open] as it is (the read is before the
    [try]); ollama is not called, nothing is written and the notes tab stays
    as it was. *)
Theorem generate_notes_without_transcript w s tf :
  open_r_fault w tf = None →
  files s !! tf = None →
  let s' := (generate_notes w tf s).1 in
  (∃ msg, (generate_notes w tf s).2 = Raise (FileNotFoundError msg)) ∧
  ollama_calls (events_of (generate_notes w tf) s) = [] ∧
  written (events_of (generate_notes w tf) s) = [] ∧
  files s' = files s ∧ notes_text (ui s') = notes_text (ui s).
Proof.
  intros Hr Hf. cbv zeta. unfold events_of.
  change (wp (generate_notes w tf) s (λ s' r,
    (∃ msg, r = Raise (FileNotFoundError msg)) ∧
    ollama_calls (drop (length (trace s)) (trace s')) = [] ∧
    written (drop (length (trace s)) (trace s')) = [] ∧
    files s' = files s ∧ notes_text (ui s') = notes_text (ui s))).
  take_apart s. reduce_state_in Hf. wp_run.
  all: simplify_eq; leaf_events; by eauto 10.
Qed.

Lemma generate_notes_without_transcript_witness :
  ollama_calls (events_of (generate_notes (world_ok [])
                             (transcript_file app_ready)) app_ready) = [].
Proof.
  eapply (generate_notes_without_transcript (world_ok []) app_ready
            (transcript_file app_ready)); reflexivity.
Defined.

(** X14: [download_audio] translates only [CalledProcessError] and
    [FileNotFoundError]: any other exception of starting yt-dlp (a
    permission error, say) leaves it unchanged.  In every case yt-dlp is
    called once, with the command of [download_cmd]; the stage writes no
    file itself (the files are as yt-dlp left them) and touches neither the
    notes tab nor the model cache. *)
Theorem download_passes_other_errors_on w s :
  let cmd := download_cmd (audio_file s) (youtube_url (vars s)) in
  let out := (yt_dlp w cmd (files s)).2 in
  let s' := (download_audio w s).1 in
  (∀ msg, out = NotStarted (OtherError msg) →
          (download_audio w s).2 = Raise (OtherError msg)) ∧
  files s' = (yt_dlp w cmd (files s)).1 ∧
  written (events_of (download_audio w) s) = [] ∧
  yt_dlp_calls (events_of (download_audio w) s) = [cmd] ∧
  notes_text (ui s') = notes_text (ui s) ∧
  whisper_model s' = whisper_model s.
Proof.
  cbv zeta. unfold events_of.
  change (wp (download_audio w) s (λ s' r,
    let cmd := download_cmd (audio_file s) (youtube_url (vars s)) in
    let out := (yt_dlp w cmd (files s)).2 in
    (∀ msg, out = NotStarted (OtherError msg) → r = Raise (OtherError msg)) ∧
    files s' = (yt_dlp w cmd (files s)).1 ∧
    written (drop (length (trace s)) (trace s')) = [] ∧
    yt_dlp_calls (drop (length (trace s)) (trace s')) = [cmd] ∧
    notes_text (ui s') = notes_text (ui s) ∧
    whisper_model s' = whisper_model s)).
  take_apart s. wp_run.
  all: leaf_events; rewrite Htool; cbn [fst snd].
  all: repeat split; intros; simplify_eq; done.
Qed.

Lemma download_passes_other_errors_on_witness :
  (download_audio world_yt_dlp_denied app_ready).2
  = Raise (OtherError (py "[Errno 13] Permission denied: 'yt-dlp'")).
Proof.
  eapply (proj1 (download_passes_other_errors_on world_yt_dlp_denied
                   app_ready)).
  reflexivity.
Defined.

(** ** More on the pipeline and on submission *)

(** X15: the output folder is made before the first stage.  A run never
    removes a directory; if [download_audio] was entered the output folder
    exists afterwards; and if the folder cannot be made, no stage is entered
    and no tool is run, no file and no directory changes, and the exception
    is reported in the status line. *)
Theorem output_folder_is_made_first w s :
  let s' := (process_pipeline w s).1 in
  let evs := run_events w s in
  dirs s ⊆ dirs s' ∧
  (entered Download evs = true → output_dir_of s ∈ dirs s') ∧
  (∀ e, mkdir_fault w (output_dir_of s) = Some e →
        evs = [] ∧ files s' = files s ∧ dirs s' = dirs s ∧
        status_label (ui s')
          = (CROSS_MARK ++ py " Error: " ++ str_exn e, py "red")).
Proof.
  unfold run_events, events_of. cbv zeta.
  change (wp (process_pipeline w) s (λ s' _,
    dirs s ⊆ dirs s' ∧
    (entered Download (drop (length (trace s)) (trace s')) = true →
     output_dir_of s ∈ dirs s') ∧
    (∀ e, mkdir_fault w (output_dir_of s) = Some e →
          drop (length (trace s)) (trace s') = [] ∧ files s' = files s ∧
          dirs s' = dirs s ∧
          status_label (ui s')
            = (CROSS_MARK ++ py " Error: " ++ str_exn e, py "red")))).
  take_apart s. wp_run.
  all: leaf_events.
  all: split; [first [reflexivity | apply union_subseteq_r]|split];
    [intros H; try discriminate H;
     apply elem_of_union_l; by apply elem_of_singleton|].
  all: intros e' He'; simplify_eq; by repeat split.
Qed.

(** X16: every run ends with exactly one message box and only appends to
    the log, at least one line.  If [generate_notes] returned, the box is
    the success box and the status line says completed; otherwise the box
    is an error box and the status line, in red, carries the same message
    after the cross mark. *)
Theorem every_run_reports_once w s :
  let s' := (process_pipeline w s).1 in
  let evs := run_events w s in
  ∃ box lines,
    dialogs (ui s') = dialogs (ui s) ++ [box] ∧
    log_text (ui s') = log_text (ui s) ++ lines ∧ lines ≠ [] ∧
    if returned Summarize evs then
      box = SUCCESS_BOX ∧ status_label (ui s') = COMPLETED
    else
      ∃ msg, box = (ShowError, py "Error", py "Process failed: " ++ msg) ∧
             status_label (ui s') = (CROSS_MARK ++ py " Error: " ++ msg,
                                     py "red").
Proof.
  unfold run_events, events_of. cbv zeta.
  change (wp (process_pipeline w) s (λ s' _,
    ∃ box lines,
      dialogs (ui s') = dialogs (ui s) ++ [box] ∧
      log_text (ui s') = log_text (ui s) ++ lines ∧ lines ≠ [] ∧
      if returned Summarize (drop (length (trace s)) (trace s')) then
        box = SUCCESS_BOX ∧ status_label (ui s') = COMPLETED
      else
        ∃ msg, box = (ShowError, py "Error", py "Process failed: " ++ msg) ∧
               status_label (ui s') = (CROSS_MARK ++ py " Error: " ++ msg,
                                       py "red"))).
  take_apart s. wp_run.
  all: clear_posts.
  all: leaf_events.
  all: do 2 eexists.
  all: split; [reflexivity|].
  all: split; [reflexivity|].
  all: split; [unfold py at 1; simpl; discriminate|].
  all: cbn [returned existsb is_returned stage_eqb orb app];
    first [by split | eexists; by split].
Qed.

Lemma process_pipeline_keeps_cache w s m :
  whisper_model s = Some m → whisper_model (process_pipeline w s).1 = Some m.
Proof.
  intros Hm.
  change (wp (process_pipeline w) s (λ s' _, whisper_model s' = Some m)).
  take_apart s. reduce_state_in Hm. wp_run.
  all: by simplify_eq.
Qed.

Lemma start_processing_keeps_cache s :
  whisper_model (start_processing s).1 = whisper_model s.
Proof.
  unfold start_processing, mbind, M_bind, gets.
  by destruct (negb _).
Qed.

(** X17: once a whisper model is in the cache it stays there: no edit of
    the form (the model size included), click or run replaces or drops
    it. *)
Theorem loaded_model_is_kept_forever s acts m :
  whisper_model s = Some m → whisper_model (run s acts) = Some m.
Proof.
  revert s. induction acts as [|a acts IH]; intros s Hm; [done|].
  simpl. apply IH. destruct a as [f| | |w]; simpl; try done.
  - destruct (process_btn (ui s)); [|done].
    by rewrite start_processing_keeps_cache.
  - destruct (threads s); [done|].
    unfold worker, mbind, M_bind, modify.
    pose proof (process_pipeline_keeps_cache w s m Hm) as H.
    by destruct (process_pipeline w s) as [s' [[]|e]].
Qed.

Lemma loaded_model_is_kept_forever_witness :
  whisper_model
    (run app_tiny [WorkerRuns (world_ok []);
                   Edit (with_model_size (py "large")); Click;
                   WorkerRuns world_bad_audio])
  = Some {| model_name := py "base" |}.
Proof.
  apply loaded_model_is_kept_forever. vm_compute. reflexivity.
Defined.






(** The [finally] clause stops the progress bar. *)
Lemma process_pipeline_stops_progress w s :
  progress (ui (process_pipeline w s).1) = false.
Proof.
  unfold process_pipeline, try_finally.
  by destruct (try_except _ _ s) as [s' r].
Qed.

(** X20: whatever a run did, when [process_pipeline] ends the progress bar
    is stopped and the button is enabled; the run does not change the form
    (URL, model size, ollama model, output folder) and starts no worker. *)
Theorem run_leaves_window_ready w s :
  let s' := (process_pipeline w s).1 in
  progress (ui s') = false ∧ process_btn (ui s') = Normal ∧
  vars s' = vars s ∧ threads s' = threads s.
Proof.
  cbv zeta. split; [|split; [|split]].
  - apply process_pipeline_stops_progress.
  - apply process_pipeline_enables_button.
  - apply process_pipeline_vars.
  - apply process_pipeline_threads.
Qed.

(** X21: a URL with at least one character that is not whitespace is
    accepted: [start_processing] disables the button, starts the progress
    bar and starts one worker; it shows no box, and touches neither the
    status line, the files, the directories nor the form. *)
Theorem start_processing_accepts_nonblank_url s :
  blank (youtube_url (vars s)) = false →
  let s' := (start_processing s).1 in
  (start_processing s).2 = Ok tt ∧
  threads s' = S (threads s) ∧
  process_btn (ui s') = Disabled ∧ progress (ui s') = true ∧
  dialogs (ui s') = dialogs (ui s) ∧
  status_label (ui s') = status_label (ui s) ∧
  files s' = files s ∧ dirs s' = dirs s ∧ trace s' = trace s ∧
  vars s' = vars s.
Proof.
  intros B. rewrite start_processing_accepts; [by repeat split|].
  intros E. apply strip_nil in E. unfold blank in B. congruence.
Qed.

Lemma start_processing_accepts_nonblank_url_witness :
  blank (youtube_url (vars app_ready)) = false ∧
  threads (start_processing app_ready).1 = 1.
Proof.
  split; [reflexivity|].
  eapply (start_processing_accepts_nonblank_url app_ready). reflexivity.
Defined.

(** X22: a finished run, failed or not, leaves the application ready for
    the next one.  From any state the application reaches with a run active,
    after the worker has run no worker is left, the button is enabled, the
    progress bar is stopped and the form is as it was; a click then starts
    exactly one worker again (the URL not being blank). *)
Theorem finished_run_allows_next_submission fs ds acts w :
  let s := run (init fs ds) acts in
  active s →
  let s1 := step s (WorkerRuns w) in
  threads s1 = 0 ∧ process_btn (ui s1) = Normal ∧ progress (ui s1) = false ∧
  vars s1 = vars s ∧
  (blank (youtube_url (vars s)) = false → threads (step s1 Click) = 1).
Proof.
  intros s Hact s1.
  assert (Inv : button_guards s) by (by apply run_button_guards).
  unfold button_guards, active in *.
  destruct (process_btn (ui s)) eqn:Hb; [lia|].
  assert (Hs1 : s1 = (worker w s).1) by (subst s1; simpl; by rewrite Inv).
  assert (Hth : threads s1 = 0) by (by rewrite Hs1, worker_threads, Inv).
  assert (Hbtn : process_btn (ui s1) = Normal)
    by (rewrite Hs1; apply worker_enables_button).
  assert (Hframe : progress (ui s1) = false ∧ vars s1 = vars s).
  { rewrite Hs1. unfold worker, mbind, M_bind, modify.
    pose proof (process_pipeline_stops_progress w s) as Hp.
    pose proof (process_pipeline_vars w s) as Hv.
    by destruct (process_pipeline w s) as [s' [[]|e]]. }
  destruct Hframe as [Hp Hv].
  repeat split; try done.
  intros B. simpl. rewrite Hbtn.
  rewrite start_processing_accepts.
  - simpl. by rewrite Hth.
  - rewrite Hv. intros E. apply strip_nil in E. unfold blank in B. congruence.
Qed.

Lemma finished_run_allows_next_submission_witness :
  threads (step (step (run (init ∅ ∅)
                         [Edit (with_url (py "https://youtu.be/abc")); Click])
                   (WorkerRuns world_bad_url)) Click) = 1.
Proof.
  eapply (finished_run_allows_next_submission ∅ ∅
            [Edit (with_url (py "https://youtu.be/abc")); Click]
            world_bad_url).
  - unfold active. vm_compute. lia.
  - vm_compute. reflexivity.
Defined.

(** X23: a run writes no file of its own other than the transcript and the
    notes, in this order and at most once each, and calls yt-dlp at most
    once, with the command of [download_cmd]; both files were written
    exactly when [generate_notes] returned. *)
Theorem run_writes_only_its_artifacts w s :
  let evs := run_events w s in
  written evs `prefix_of` [transcript_file s; notes_file s] ∧
  yt_dlp_calls evs
    `prefix_of` [download_cmd (audio_file s) (youtube_url (vars s))] ∧
  (written evs = [transcript_file s; notes_file s] ↔
   returned Summarize evs = true).
Proof.
  unfold run_events, events_of. cbv zeta.
  change (wp (process_pipeline w) s (λ s' _,
    written (drop (length (trace s)) (trace s'))
      `prefix_of` [transcript_file s; notes_file s] ∧
    yt_dlp_calls (drop (length (trace s)) (trace s'))
      `prefix_of` [download_cmd (audio_file s) (youtube_url (vars s))] ∧
    (written (drop (length (trace s)) (trace s'))
       = [transcript_file s; notes_file s] ↔
     returned Summarize (drop (length (trace s)) (trace s')) = true))).
  take_apart s. wp_run.
  all: clear_posts; leaf_events; cbn.
  all: split; [|split].
  all: try (by eexists).
  all: try (split; intros H; [discriminate H|discriminate H]).
  all: try (by split).
Qed.

(** X24: the hand-over from download to transcription.  Whenever whisper is
    asked to transcribe in a run, the path it is given is the one yt-dlp was
    given after [-o], yt-dlp was called once, and it had exited with code
    zero. *)
Theorem transcriber_reads_the_downloaded_file w s m audio :
  RunTranscribe m audio ∈ run_events w s →
  audio = path_str (audio_file s) ∧
  yt_dlp_calls (run_events w s) =
    [download_cmd (audio_file s) (youtube_url (vars s))] ∧
  nth 7 (download_cmd (audio_file s) (youtube_url (vars s))) [] = audio ∧
  ∃ fs fs' stdout stderr,
    yt_dlp w (download_cmd (audio_file s) (youtube_url (vars s))) fs
      = (fs', Exited 0 stdout stderr).
Proof.
  unfold run_events, events_of.
  change (wp (process_pipeline w) s (λ s' _,
    RunTranscribe m audio ∈ drop (length (trace s)) (trace s') →
    audio = path_str (audio_file s) ∧
    yt_dlp_calls (drop (length (trace s)) (trace s')) =
      [download_cmd (audio_file s) (youtube_url (vars s))] ∧
    nth 7 (download_cmd (audio_file s) (youtube_url (vars s))) [] = audio ∧
    ∃ fs fs' stdout stderr,
      yt_dlp w (download_cmd (audio_file s) (youtube_url (vars s))) fs
        = (fs', Exited 0 stdout stderr))).
  take_apart s. wp_run.
  all: clear_posts; leaf_events; cbn; intros Hin.
  all: repeat (apply elem_of_cons in Hin as [Hin|Hin]; [simplify_eq|]).
  all: try (by apply not_elem_of_nil in Hin).
  all: return_codes; subst.
  all: split; [done|]; split; [done|]; split; [done|]; by do 4 eexists.
Qed.

Lemma transcriber_reads_the_downloaded_file_witness :
  RunTranscribe {| model_name := py "base" |} (py "lecture_audio1.mp3")
    ∈ run_events (world_ok (py "# Notes")) app_ready ∧
  yt_dlp_calls (run_events (world_ok (py "# Notes")) app_ready) =
    [download_cmd (audio_file app_ready) (py "https://youtu.be/abc")].
Proof.
  assert (Hin : RunTranscribe {| model_name := py "base" |}
                  (py "lecture_audio1.mp3")
                ∈ run_events (world_ok (py "# Notes")) app_ready)
    by (vm_compute; do 5 apply list_elem_of_further; apply list_elem_of_here).
  split; [exact Hin|].
  by destruct (transcriber_reads_the_downloaded_file _ _ _ _ Hin)
    as (_ & Hc & _).
Defined.
